(** * jncep_webui: the output packager and the request handler of [app.py]

    A shallow embedding of [create_epub], [make_one_bytesio_file] and
    [index], together with the parts of Python's [str], [pathlib],
    [zipfile], [shutil] and Flask's request object that they rely on.

    The embedding threads an explicit world (file system, clock, trace of
    observable events) through a small state-and-exception monad.  Python
    exceptions are values of [exn]; a raised exception keeps the effects
    that happened before it. *)

From Stdlib Require Import Strings.Ascii Strings.String Strings.Byte ZArith.
From stdpp Require Import gmap strings list pretty countable.

#[local] Arguments String.append !_ _ : simpl nomatch.

(** ** Python [str] operations used by the application *)

Module Str.

(** [s.startswith(sub)] *)
Fixpoint startswith (sub s : string) : bool :=
  match sub, s with
  | EmptyString, _ => true
  | String _ _, EmptyString => false
  | String a sub', String b s' => Ascii.eqb a b && startswith sub' s'
  end.

(** [s.find(sub)]: the lowest index at which [sub] occurs, if any.
    [s.index(sub)] is the same search and raises [ValueError] on [None]. *)
Fixpoint find (sub s : string) : option nat :=
  if startswith sub s then Some 0
  else match s with
       | EmptyString => None
       | String _ s' => S <$> find sub s'
       end.

(** [s.rfind(c)] for a one-character needle. *)
Fixpoint rfind (c : ascii) (s : string) : option nat :=
  match s with
  | EmptyString => None
  | String a s' =>
      match rfind c s' with
      | Some i => Some (S i)
      | None => if Ascii.eqb a c then Some 0 else None
      end
  end.

(** The slice [s[:i]] for a non-negative [i]. *)
Fixpoint slice_to (i : nat) (s : string) : string :=
  match i, s with
  | S i', String a s' => String a (slice_to i' s')
  | _, _ => EmptyString
  end.

(** [s.endswith(suf)] *)
Fixpoint endswith (suf s : string) : bool :=
  if String.eqb s suf then true
  else match s with
       | EmptyString => false
       | String _ s' => endswith suf s'
       end.

(** [c in s] for a one-character needle. *)
Fixpoint contains_char (c : ascii) (s : string) : bool :=
  match s with
  | EmptyString => false
  | String a s' => Ascii.eqb a c || contains_char c s'
  end.

(** [s.split(c)]: never the empty list. *)
Fixpoint split (c : ascii) (s : string) : list string :=
  match s with
  | EmptyString => [EmptyString]
  | String a s' =>
      if Ascii.eqb a c then EmptyString :: split c s'
      else match split c s' with
           | h :: t => String a h :: t
           | [] => [String a EmptyString]
           end
  end.

End Str.

(** ** [pathlib] *)

(** A parsed path: whether it is anchored at the root, and its components.
    A component is looked up verbatim: the model has no [..] entries. *)
Record Path := mkPath { anchor : bool; parts : list string }.

Module PurePath.

Definition sep : ascii := "/"%char.

Definition keep_part (c : string) : bool :=
  negb (String.eqb c "") && negb (String.eqb c ".").

(** [Path(s)]: split at the separator, drop empty and [.] components. *)
Definition of_string (s : string) : Path :=
  {| anchor := Str.startswith "/" s;
     parts := List.filter keep_part (Str.split sep s) |}.

(** [p / child] for a single component, as [glob] builds its results. *)
Definition joinpath (p : Path) (child : string) : Path :=
  {| anchor := anchor p; parts := parts p ++ [child] |}.

(** [p.name]: the final component, or the empty string. *)
Definition name (p : Path) : string := List.last (parts p) "".

(** [p.parent]: the path without its final component; a path without
    components is its own parent. *)
Definition parent (p : Path) : Path :=
  {| anchor := anchor p; parts := List.removelast (parts p) |}.

(** [p.stem]: the name without its last suffix.  The suffix starts at
    the last dot unless that dot is the first or the last character. *)
Definition stem_of_name (n : string) : string :=
  match Str.rfind "."%char n with
  | Some i =>
      if (0 <? i)%nat && (i <? String.length n - 1)%nat
      then Str.slice_to i n else n
  | None => n
  end.

Definition stem (p : Path) : string := stem_of_name (name p).

End PurePath.

(** ** Exceptions *)

Inductive exn :=
| IndexError
| ValueError
| KeyError (key : string)
| BadRequestKeyError (key : string)
| FileNotFoundError
| FileExistsError
| NotADirectoryError
| IsADirectoryError
| LibraryError (msg : string).

Inductive result (A : Type) :=
| Return (a : A)
| Raise (e : exn).
Arguments Return {A} a.
Arguments Raise {A} e.

(** ** The file system

    A directory keeps its entries in enumeration order.  A regular file
    carries its modification time and its bytes. *)

#[warnings="-register-all"]
Inductive node :=
| File (mtime : Z) (data : list byte)
| Dir (entries : list (string * node)).

Module FS.

Fixpoint entry_lookup (c : string) (es : list (string * node)) : option node :=
  match es with
  | [] => None
  | (k, n) :: es' => if String.eqb k c then Some n else entry_lookup c es'
  end.

(** Replace the entry that [entry_lookup] finds. *)
Fixpoint entry_alter (f : node -> node) (c : string) (es : list (string * node))
  : list (string * node) :=
  match es with
  | [] => []
  | (k, n) :: es' =>
      if String.eqb k c then (k, f n) :: es' else (k, n) :: entry_alter f c es'
  end.

Definition entry_remove (c : string) (es : list (string * node))
  : list (string * node) :=
  List.filter (fun e => negb (String.eqb (fst e) c)) es.

(** Resolution of a list of entry names from a node.  A [.] or [..]
    component is looked up like a name (and not found): the lookup is
    the resolution of the operating system on paths of entry names. *)
Fixpoint lookup (p : list string) (n : node) : option node :=
  match p with
  | [] => Some n
  | c :: p' =>
      match n with
      | Dir es =>
          match entry_lookup c es with
          | Some child => lookup p' child
          | None => None
          end
      | File _ _ => None
      end
  end.

(** [Path.mkdir(parents=True, exist_ok=True)]: existing directories on the
    way are kept, missing ones are created (a new entry is enumerated
    last); a regular file in the way is an error. *)
Fixpoint makedirs (p : list string) (n : node) : exn + node :=
  match n with
  | File _ _ =>
      inl (match p with [] => FileExistsError | _ :: _ => NotADirectoryError end)
  | Dir es =>
      match p with
      | [] => inr n
      | c :: p' =>
          match entry_lookup c es with
          | Some child =>
              match makedirs p' child with
              | inr child' => inr (Dir (entry_alter (fun _ => child') c es))
              | inl e => inl e
              end
          | None =>
              match makedirs p' (Dir []) with
              | inr child' => inr (Dir (es ++ [(c, child')]))
              | inl e => inl e
              end
          end
      end
  end.

(** [shutil.rmtree(p, ignore_errors=True)]: a directory at [p] goes away
    with everything below it; anything else is left alone and the error
    is swallowed.  The root itself cannot be unlinked, only emptied. *)
Fixpoint rmtree (p : list string) (n : node) : node :=
  match p, n with
  | _, File _ _ => n
  | [], Dir _ => Dir []
  | [c], Dir es =>
      match entry_lookup c es with
      | Some (Dir _) => Dir (entry_remove c es)
      | _ => n
      end
  | c :: p', Dir es => Dir (entry_alter (rmtree p') c es)
  end.

(** Create or replace a regular file below existing directories (used to
    describe what a generation run leaves behind). *)
Fixpoint write_file (p : list string) (mtime : Z) (data : list byte) (n : node) : node :=
  match p, n with
  | [c], Dir es =>
      match entry_lookup c es with
      | Some _ => Dir (entry_alter (fun _ => File mtime data) c es)
      | None => Dir (es ++ [(c, File mtime data)])
      end
  | c :: p', Dir es => Dir (entry_alter (write_file p' mtime data) c es)
  | _, _ => n
  end.

End FS.

(** ** [datetime] *)

Record datetime := mkDatetime {
  year : nat; month : nat; day : nat;
  hour : nat; minute : nat; second : nat; microsecond : nat
}.

Module Datetime.

Definition digit (d : nat) : ascii :=
  match d with
  | 0 => "0" | 1 => "1" | 2 => "2" | 3 => "3" | 4 => "4"
  | 5 => "5" | 6 => "6" | 7 => "7" | 8 => "8" | _ => "9"
  end%char.

(** The [w] low decimal digits of [n], zero-padded: the fixed-width
    fields of [strftime] on the value ranges of [datetime]. *)
Fixpoint zero_pad (w n : nat) : string :=
  match w with
  | 0 => ""
  | S w' => zero_pad w' (n / 10) +:+ String (digit (n mod 10)) ""
  end.

(** [dt.strftime('%Y-%m-%d_%H-%M_%f')] *)
Definition strftime (dt : datetime) : string :=
  zero_pad 4 (year dt) +:+ "-" +:+ zero_pad 2 (month dt) +:+ "-" +:+
  zero_pad 2 (day dt) +:+ "_" +:+ zero_pad 2 (hour dt) +:+ "-" +:+
  zero_pad 2 (minute dt) +:+ "_" +:+ zero_pad 6 (microsecond dt).

End Datetime.

(** ** In-memory buffers, archives, requests and responses *)

(** [io.BytesIO]: the buffer and the read/write position. *)
Record BytesIO := mkBytesIO { getvalue : list byte; tell : nat }.

Definition BytesIO_seek (pos : nat) (b : BytesIO) : BytesIO :=
  {| getvalue := getvalue b; tell := pos |}.

(** What a reader obtains from the buffer: the bytes from the position on. *)
Definition BytesIO_read (b : BytesIO) : list byte := drop (tell b) (getvalue b).

(** One member of a [zipfile.ZipFile].  A regular file is stored with its
    archive name, the modification time of the file on disk and its bytes;
    a directory is stored as a name that ends in the separator, without
    data (its timestamp is not modelled). *)
Inductive ZipInfo :=
| FileInfo (filename : string) (date_time : Z) (data : list byte)
| DirInfo (filename : string).

Definition filename (z : ZipInfo) : string :=
  match z with
  | FileInfo n _ _ => n
  | DirInfo n => n
  end.

Definition member_data (z : ZipInfo) : list byte :=
  match z with
  | FileInfo _ _ d => d
  | DirInfo _ => []
  end.

(** Names that [zipfile] can write.  A file name reaches Python with
    its bytes decoded as UTF-8, and [zipfile] encodes the member name as
    UTF-8 again, which fails with [UnicodeEncodeError] unless the bytes
    on disk were well-formed UTF-8. *)
Module Utf8.

Definition between (lo hi : nat) (c : ascii) : bool :=
  (lo <=? nat_of_ascii c)%nat && (nat_of_ascii c <=? hi)%nat.

Definition continuation (c : ascii) : bool := between 128 191 c.

(** The second byte of a three-byte sequence: no overlong form, no
    surrogate. *)
Definition second_of_three (a b : ascii) : bool :=
  if between 224 224 a then between 160 191 b
  else if between 237 237 a then between 128 159 b
  else continuation b.

(** The second byte of a four-byte sequence: no overlong form, nothing
    above U+10FFFF. *)
Definition second_of_four (a b : ascii) : bool :=
  if between 240 240 a then between 144 191 b
  else if between 244 244 a then between 128 143 b
  else continuation b.

Fixpoint valid (s : string) : bool :=
  match s with
  | EmptyString => true
  | String a s1 =>
      if between 0 127 a then valid s1
      else
        match s1 with
        | EmptyString => false
        | String b s2 =>
            if between 194 223 a then continuation b && valid s2
            else
              match s2 with
              | EmptyString => false
              | String c s3 =>
                  if between 224 239 a
                  then second_of_three a b && continuation c && valid s3
                  else
                    match s3 with
                    | EmptyString => false
                    | String d s4 =>
                        between 240 244 a && second_of_four a b &&
                        continuation c && continuation d && valid s4
                    end
              end
        end
  end.

End Utf8.

(** Modification times that [zipfile] can write in every time zone.  The
    member's date is the local calendar time of the file's modification
    time (seconds since 1970); [ZipFile.write] raises [ValueError] for a
    year before 1980 and [struct.error] for a year after 2107.  From
    1980-01-02 00:00 UTC up to 2107-12-31 00:00 UTC the local year is
    within 1980..2107 whatever the offset of the time zone. *)
Definition storable_mtime (t : Z) : Prop :=
  (315619200 <= t < 4354732800)%Z.

(** The members that [zipfile] accepts. *)
Definition storable_member (z : ZipInfo) : Prop :=
  match z with
  | FileInfo n t _ => Utf8.valid n = true /\ storable_mtime t
  | DirInfo n => Utf8.valid n = true
  end.

(** The DEFLATE archive format is the [zipfile] library's: the embedding
    takes its writer and reader as an interface, with the library's
    contract that reading back an archive of members it accepts gives
    members with the names and the bytes written.  (The format keeps
    the date of a member to two seconds only, so nothing is promised
    about it.) *)
Class ZipLibrary := {
  zip_bytes : list ZipInfo -> list byte;
  zip_members : list byte -> option (list ZipInfo);
  zip_members_bytes : forall ms,
    Forall storable_member ms ->
    exists ms',
      zip_members (zip_bytes ms) = Some ms' /\
      List.map (fun m => (filename m, member_data m)) ms'
      = List.map (fun m => (filename m, member_data m)) ms
}.

(** The fixed options in the module-level [args] dictionary. *)
Record Args := mkArgs {
  email : string; password : string;
  is_by_volume : bool; is_extract_images : bool; is_extract_content : bool;
  is_not_replace_chars : bool; style_css_path : bool
}.

(** [args] as the entry point builds it from the credentials. *)
Definition startup_args (email password : string) : Args :=
  {| email := email; password := password;
     is_by_volume := true; is_extract_images := false;
     is_extract_content := false; is_not_replace_chars := false;
     style_css_path := false |}.

(** The positional arguments of [generate_epub.callback]. *)
Record GenCall := mkGenCall {
  gen_jnc_url : string; gen_email : string; gen_password : string;
  gen_part_spec : string; gen_output_dirpath : string;
  gen_is_by_volume : bool; gen_is_extract_images : bool;
  gen_is_extract_content : bool; gen_is_not_replace_chars : bool;
  gen_style_css_path : bool
}.

(** The generation library is external: any function from the call and
    the file system to an optional exception and a new file system. *)
Class GenerationLibrary := {
  generate_epub_callback : GenCall -> node -> option exn * node
}.

(** Flask's request: the caller address and the submitted form. *)
Record request := mkRequest {
  remote_addr : string;
  form : gmap string string
}.

(** What [send_file] is given. *)
Record Response := mkResponse {
  body : BytesIO;
  download_name : string;
  as_attachment : bool
}.

(** ** The world and the monad *)

Inductive level := DEBUG | INFO.

(** The trace of a run: the log lines, and the calls that the
    properties of the handler speak about. *)
Inductive event :=
| Log (l : level) (msg : string)
| Enter_create_epub (jnc_url part_spec : string)
| Call_generate_epub (c : GenCall)
| Enter_make_one_bytesio_file (directory : string)
| Call_rmtree (p : Path)
| Call_send_file (download_name : string).

(** The process: environment, option dictionary and working directory
    are fixed when it starts. *)
Record process := mkProcess {
  environ : gmap string string;
  args : Args;
  cwd : list string
}.

Record world := mkWorld {
  fs : node;
  now : datetime;
  trace : list event
}.

Definition M (A : Type) : Type := world -> result A * world.

Definition ret {A} (a : A) : M A := fun w => (Return a, w).

Definition bind {A B} (m : M A) (k : A -> M B) : M B :=
  fun w => match m w with
           | (Return a, w') => k a w'
           | (Raise e, w') => (Raise e, w')
           end.

Definition raise {A} (e : exn) : M A := fun w => (Raise e, w).

Declare Scope py_scope.
Delimit Scope py_scope with py.
Notation "'let*' x ':=' m 'in' k" := (bind m (fun x => k))
  (at level 10, x pattern, m at level 100, k at level 200) : py_scope.
Notation "m ;; k" := (bind m (fun _ => k))
  (at level 100, right associativity) : py_scope.
Local Open Scope py_scope.

Definition emit (e : event) : M unit :=
  fun w => (Return tt, {| fs := fs w; now := now w; trace := trace w ++ [e] |}).

Definition logger (l : level) (msg : string) : M unit := emit (Log l msg).

Definition get_fs : M node := fun w => (Return (fs w), w).

Definition put_fs (n : node) : M unit :=
  fun w => (Return tt, {| fs := n; now := now w; trace := trace w |}).

Definition datetime_now : M datetime := fun w => (Return (now w), w).

(** [d[k]] on a mapping, raising [e] when the key is missing. *)
Definition getitem (e : exn) (k : string) (d : gmap string string) : M string :=
  match d !! k with
  | Some v => ret v
  | None => raise e
  end.

(** [l[i]] on a list. *)
Definition list_getitem {A} (l : list A) (i : nat) : M A :=
  match l !! i with
  | Some x => ret x
  | None => raise IndexError
  end.

(** [s.index(sub)] *)
Definition str_index (s sub : string) : M nat :=
  match Str.find sub s with
  | Some i => ret i
  | None => raise ValueError
  end.

Fixpoint mapM {A B} (f : A -> M B) (l : list A) : M (list B) :=
  match l with
  | [] => ret []
  | x :: l' => let* y := f x in let* ys := mapM f l' in ret (y :: ys)
  end.

(** ** The application *)

Section App.

Context {zip : ZipLibrary} {gen : GenerationLibrary} (proc : process).

(** How the operating system resolves a path of this process. *)
Definition resolve (p : Path) : list string :=
  if anchor p then parts p else cwd proc ++ parts p.

(** [Path(d).glob('*.epub')]: the entries of [d] whose name ends in
    [.epub], in enumeration order, as children of [d]; nothing when [d]
    is not a directory. *)
Definition glob_epub (d : Path) : M (list Path) :=
  let* root := get_fs in
  match FS.lookup (resolve d) root with
  | Some (Dir es) =>
      ret (List.map (PurePath.joinpath d)
             (List.filter (Str.endswith ".epub") (List.map fst es)))
  | _ => ret []
  end.

(** [open(p, "rb").read()] *)
Definition read_bytes (p : Path) : M (list byte) :=
  let* root := get_fs in
  match FS.lookup (resolve p) root with
  | Some (File _ data) => ret data
  | Some (Dir _) => raise IsADirectoryError
  | None => raise FileNotFoundError
  end.

(** [zipf.write(p, arcname=arcname)]: the member that is appended.  The
    refusal of a member that is not [storable_member] is not modelled:
    the member is appended all the same, and [ZipLibrary] promises
    nothing about an archive that holds it. *)
Definition ZipFile_write (p : Path) (arcname : string) : M ZipInfo :=
  let* root := get_fs in
  match FS.lookup (resolve p) root with
  | Some (File mtime data) => ret (FileInfo arcname mtime data)
  | Some (Dir _) => ret (DirInfo (arcname +:+ "/"))
  | None => raise FileNotFoundError
  end.

(** [Path.mkdir(p, parents=True, exist_ok=True)] *)
Definition Path_mkdir (p : Path) : M unit :=
  let* root := get_fs in
  match FS.makedirs (resolve p) root with
  | inr root' => put_fs root'
  | inl e => raise e
  end.

(** [shutil.rmtree(p, ignore_errors=True)] *)
Definition shutil_rmtree (p : Path) : M unit :=
  emit (Call_rmtree p) ;;
  let* root := get_fs in
  put_fs (FS.rmtree (resolve p) root).

(** [generate_epub.callback(...)] *)
Definition generate_epub (c : GenCall) : M unit :=
  emit (Call_generate_epub c) ;;
  let* root := get_fs in
  let (failure, root') := generate_epub_callback c root in
  put_fs root' ;;
  match failure with
  | Some e => raise e
  | None => ret tt
  end.

(** [send_file(file_object, download_name=filename, as_attachment=True)] *)
Definition send_file (file_object : BytesIO) (filename : string) : M Response :=
  emit (Call_send_file filename) ;;
  ret {| body := file_object; download_name := filename; as_attachment := true |}.

(** [request.form[k]] *)
Definition form_getitem (req : request) (k : string) : M string :=
  getitem (BadRequestKeyError k) k (form req).

(** Truth value of [request.form.get(k)]. *)
Definition form_get_truthy (req : request) (k : string) : bool :=
  match form req !! k with
  | Some (String _ _) => true
  | _ => false
  end.

Definition create_epub (req : request) (jnc_url part_spec : string) : M string :=
  emit (Enter_create_epub jnc_url part_spec) ;;
  let* dt := datetime_now in
  let timestamp := Datetime.strftime dt in
  let* out := getitem (KeyError "JNCEP_OUTPUT") "JNCEP_OUTPUT" (environ proc) in
  let output_dirpath := out +:+ "/" +:+ remote_addr req +:+ "/" +:+ timestamp in
  Path_mkdir (PurePath.of_string output_dirpath) ;;
  logger INFO ("Generating epub(s) at " +:+ output_dirpath) ;;
  generate_epub
    {| gen_jnc_url := jnc_url;
       gen_email := email (args proc);
       gen_password := password (args proc);
       gen_part_spec := part_spec;
       gen_output_dirpath := output_dirpath;
       gen_is_by_volume := is_by_volume (args proc);
       gen_is_extract_images := is_extract_images (args proc);
       gen_is_extract_content := is_extract_content (args proc);
       gen_is_not_replace_chars := is_not_replace_chars (args proc);
       gen_style_css_path := style_css_path (args proc) |} ;;
  logger INFO "Epub(s) generated" ;;
  ret output_dirpath.

Definition make_one_bytesio_file (directory : string) : M (BytesIO * string) :=
  emit (Enter_make_one_bytesio_file directory) ;;
  let* files := glob_epub (PurePath.of_string directory) in
  if (length files =? 1)%nat then
    let* file := list_getitem files 0 in
    let* content := read_bytes file in
    let memory_file := {| getvalue := content; tell := 0 |} in
    let* file0 := list_getitem files 0 in
    ret (memory_file, PurePath.name file0)
  else
    logger INFO ("There are " +:+ pretty (length files)
                 +:+ " files. Zipping them together.") ;;
    let* members :=
      mapM (fun file => ZipFile_write file (PurePath.name file)) files in
    let written := zip_bytes members in
    let memory_file :=
      BytesIO_seek 0 {| getvalue := written; tell := length written |} in
    let* file0 := list_getitem files 0 in
    let* i := str_index (PurePath.stem file0) "_Volume_" in
    ret (memory_file, Str.slice_to i (PurePath.stem file0) +:+ ".zip").

Definition index (req : request) : M Response :=
  logger INFO ("Prepub parts requested by client: " +:+ remote_addr req) ;;
  let* url := form_getitem req "jnovelclub_url" in
  logger DEBUG ("Requested JNC URL: " +:+ url) ;;
  (if form_get_truthy req "prepub_parts" then
     let* requested := form_getitem req "prepub_parts" in
     logger INFO ("Requested parts: " +:+ requested)
   else
     logger INFO "Requested ALL") ;;
  let* jnc_url := form_getitem req "jnovelclub_url" in
  let* part_spec := form_getitem req "prepub_parts" in
  let* epub_path := create_epub req jnc_url part_spec in
  let* (file_object, filename) := make_one_bytesio_file epub_path in
  logger DEBUG "Deleting epub(s)" ;;
  shutil_rmtree (PurePath.parent (PurePath.of_string epub_path)) ;;
  logger INFO "Sending requested epub(s)" ;;
  send_file file_object filename.

End App.

(** ** Libraries to run the application on concrete inputs *)

(** A stored (uncompressed) archive format that meets the [ZipLibrary]
    contract: the members are numbered by their countable encoding and
    the number is written out bit by bit. *)
Module Stored.

#[global] Instance byte_eq_dec : EqDecision byte := Byte.byte_eq_dec.

#[global] Instance byte_countable : Countable byte :=
  inj_countable Byte.to_N Byte.of_N Byte.of_to_N.

#[global] Instance ZipInfo_eq_dec : EqDecision ZipInfo.
Proof. solve_decision. Defined.

Definition ZipInfo_to_sum (z : ZipInfo) : string * Z * list byte + string :=
  match z with
  | FileInfo n t d => inl (n, t, d)
  | DirInfo n => inr n
  end.

Definition ZipInfo_of_sum (s : string * Z * list byte + string) : ZipInfo :=
  match s with
  | inl (n, t, d) => FileInfo n t d
  | inr n => DirInfo n
  end.

#[global] Instance ZipInfo_countable : Countable ZipInfo.
Proof.
  refine (inj_countable' ZipInfo_to_sum ZipInfo_of_sum _).
  intros []; reflexivity.
Defined.

Fixpoint bits (p : positive) : list byte :=
  match p with
  | xH => []
  | xO p' => x00 :: bits p'
  | xI p' => x01 :: bits p'
  end.

Fixpoint unbits (l : list byte) : option positive :=
  match l with
  | [] => Some xH
  | x00 :: l' => xO <$> unbits l'
  | x01 :: l' => xI <$> unbits l'
  | _ :: _ => None
  end.

Definition pack (ms : list ZipInfo) : list byte := bits (encode ms).

Definition unpack (bs : list byte) : option (list ZipInfo) :=
  match unbits bs with
  | Some p => decode p
  | None => None
  end.

#[global] Instance library : ZipLibrary.
Proof.
  refine {| zip_bytes := pack; zip_members := unpack |}.
  intros ms _. exists ms. split; [|reflexivity]. unfold unpack, pack.
  assert (Hbits : forall p, unbits (bits p) = Some p).
  { induction p as [p IH|p IH|]; simpl; rewrite ?IH; reflexivity. }
  rewrite Hbits. apply decode_encode.
Defined.

End Stored.

(** A generation run that fails with the given message and leaves the
    file system as it found it. *)
Definition failing_generation (msg : string) : GenerationLibrary :=
  {| generate_epub_callback := fun _ root => (Some (LibraryError msg), root) |}.

(** A generation run that writes the given files, in order, into the
    (absolute) output directory it is called with. *)
Definition writing_generation (files : list (string * list byte)) : GenerationLibrary :=
  {| generate_epub_callback := fun c root =>
       let d := parts (PurePath.of_string (gen_output_dirpath c)) in
       (None,
        List.fold_left
          (fun r f => FS.write_file (d ++ [fst f]) 1700000000 (snd f) r)
          files root) |}.

Module Fixture.

Definition proc : process :=
  {| environ := {[ "JNCEP_OUTPUT" := "/srv/out" ]};
     args := startup_args "reader@example.org" "secret";
     cwd := ["srv"; "app"] |}.

Definition clock : datetime := mkDatetime 2024 1 2 3 4 5 6.

Definition vol1 : list byte := [x50; x4b; x03; x04; x01].
Definition vol2 : list byte := [x50; x4b; x03; x04; x02; x02].

Definition one_volume_entries : list (string * node) :=
  [("MySeries_Volume_1.epub", File 1700000000 vol1)].

Definition two_volumes_entries : list (string * node) :=
  [("MySeries_Volume_1.epub", File 1700000000 vol1);
   ("MySeries_Volume_2.epub", File 1700000060 vol2)].

Definition unnamed_entries : list (string * node) :=
  [("a.epub", File 1700000000 vol1); ("b.epub", File 1700000060 vol2)].

(** The directory [/out] with the given entries. *)
Definition out_with (es : list (string * node)) : node := Dir [("out", Dir es)].

(** The output root with an earlier working directory of caller 10.0.0.7. *)
Definition earlier_request : node :=
  Dir [("srv", Dir [("out", Dir [("10.0.0.7",
     Dir [("2023-12-31_23-59_000001",
           Dir [("Old_Volume_1.epub", File 1600000000 vol1)])])])])].

Definition earlier_time : datetime := mkDatetime 2023 12 31 23 59 0 1.

Definition world_of (root : node) : world :=
  {| fs := root; now := clock; trace := [] |}.

Definition post (fields : list (string * string)) : request :=
  {| remote_addr := "10.0.0.7"; form := list_to_map fields |}.

Definition series_url : string := "https://j-novel.club/series/my-series".

(** A generation run that writes the two volumes. *)
Definition two_volumes_generation : GenerationLibrary :=
  writing_generation
    [("MySeries_Volume_1.epub", vol1); ("MySeries_Volume_2.epub", vol2)].

(** The packager and the handler of the process, with stored archives. *)
Definition packager : string -> M (BytesIO * string) :=
  make_one_bytesio_file (zip := Stored.library) proc.

Definition handler (gen : GenerationLibrary) : request -> M Response :=
  index (zip := Stored.library) (gen := gen) proc.

(** The response to a request that generated the two volumes. *)
Definition series_response : Response :=
  {| body :=
       {| getvalue :=
            Stored.pack
              [FileInfo "MySeries_Volume_1.epub" 1700000000 vol1;
               FileInfo "MySeries_Volume_2.epub" 1700000000 vol2];
          tell := 0 |};
     download_name := "MySeries.zip";
     as_attachment := true |}.

End Fixture.

(** ** Vocabulary of the statements *)

(** The separator token of generated file names. *)
Definition volume_token : string := "_Volume_".

(** The entries of a directory that [glob('*.epub')] selects. *)
Definition epub_entries (es : list (string * node)) : list (string * node) :=
  List.filter (fun e => Str.endswith ".epub" (fst e)) es.

Definition is_file (n : node) : bool :=
  match n with
  | File _ _ => true
  | Dir _ => false
  end.

Definition file_bytes (n : node) : list byte :=
  match n with
  | File _ d => d
  | Dir _ => []
  end.

(** The generated files of a directory: base name and bytes, in
    enumeration order. *)
Definition directory_files (es : list (string * node)) : list (string * list byte) :=
  List.map (fun e => (fst e, file_bytes (snd e))) (epub_entries es).

(** An entry that [zipfile] accepts as a member: a name in well-formed
    UTF-8 and, for a regular file, a storable modification time. *)
Definition storable_entry (e : string * node) : Prop :=
  Utf8.valid (fst e) = true /\
  match snd e with
  | File t _ => storable_mtime t
  | Dir _ => True
  end.

(** What decompressing an archive yields: member name and bytes. *)
Definition extracted (ms : list ZipInfo) : list (string * list byte) :=
  List.map (fun m => (filename m, member_data m)) ms.

(** The path separators: the POSIX one, and the one Windows accepts as well. *)
Definition separators : list ascii := ["/"; "\"]%char.

(** The member that [ZipFile.write] stores for the entry named [n]. *)
Definition member_of (es : list (string * node)) (n : string) : ZipInfo :=
  match FS.entry_lookup n es with
  | Some (File t d) => FileInfo n t d
  | _ => DirInfo (n +:+ "/")
  end.

(** The names that [glob('*.epub')] yields for the directory [d]. *)
Definition epub_names (proc : process) (d : Path) (root : node) : list string :=
  match FS.lookup (resolve proc d) root with
  | Some (Dir es) => List.map fst (epub_entries es)
  | _ => []
  end.

(** The working directory of a request: output root, caller address and
    formatted time of the request. *)
Definition working_directory (out : string) (req : request) (dt : datetime) : string :=
  out +:+ "/" +:+ remote_addr req +:+ "/" +:+ Datetime.strftime dt.

(** The directory of a caller address, which holds its working directories. *)
Definition caller_directory (out : string) (req : request) : string :=
  out +:+ "/" +:+ remote_addr req.

(** The call that [create_epub] makes into the generation library. *)
Definition generation_call (proc : process) (jnc_url part_spec dirpath : string) : GenCall :=
  {| gen_jnc_url := jnc_url;
     gen_email := email (args proc);
     gen_password := password (args proc);
     gen_part_spec := part_spec;
     gen_output_dirpath := dirpath;
     gen_is_by_volume := is_by_volume (args proc);
     gen_is_extract_images := is_extract_images (args proc);
     gen_is_extract_content := is_extract_content (args proc);
     gen_is_not_replace_chars := is_not_replace_chars (args proc);
     gen_style_css_path := style_css_path (args proc) |}.

(** Generation was called with this source URL. *)
Definition generates_from (url : string) (e : event) : bool :=
  match e with
  | Call_generate_epub c => String.eqb (gen_jnc_url c) url
  | _ => false
  end.

(** The events of a packager run. *)
Definition entering (directory : string) : event :=
  Enter_make_one_bytesio_file directory.

Definition zipping (count : nat) : event :=
  Log INFO ("There are " +:+ pretty count +:+ " files. Zipping them together.").

(** The world after a run that appended events and nothing else. *)
Definition logged (w : world) (evs : list event) : world :=
  {| fs := fs w; now := now w; trace := trace w ++ evs |}.

Definition is_rmtree (e : event) : bool :=
  match e with
  | Call_rmtree _ => true
  | _ => false
  end.

Definition is_packaging (e : event) : bool :=
  match e with
  | Enter_make_one_bytesio_file _ => true
  | _ => false
  end.

Definition is_generation (e : event) : bool :=
  match e with
  | Call_generate_epub _ => true
  | _ => false
  end.

(** ** The entry point and the logging bridge *)

(** The [args] dictionary as the entry point evaluates it: the two
    credentials are read from the environment in this order, a missing
    one raises [KeyError]; the options are constants. *)
Definition main_args (env : gmap string string) : exn + Args :=
  match env !! "JNCEP_EMAIL" with
  | None => inl (KeyError "JNCEP_EMAIL")
  | Some e =>
      match env !! "JNCEP_PASSWORD" with
      | None => inl (KeyError "JNCEP_PASSWORD")
      | Some p => inr (startup_args e p)
      end
  end.

(** What [InterceptHandler.emit] reads from a [logging] record. *)
Record LogRecord := mkLogRecord {
  levelname : string;
  levelno : nat;
  getMessage : string
}.

Module InterceptHandler.

(** The only failure of [emit]: [frame.f_code] when [frame] is [None]. *)
Inductive error := AttributeError.

(** [logger.level(name).name] for a registered level, the record's
    number when [logger.level] raises [ValueError]. *)
Definition level_of (registered : list string) (record : LogRecord) : string + nat :=
  if existsb (String.eqb (levelname record)) registered
  then inl (levelname record)
  else inr (levelno record).

(** The loop over the stack, given as the [co_filename] of each frame
    from [logging.currentframe()] outwards along [f_back]. *)
Fixpoint find_caller (logging_file : string) (frames : list string) (depth : nat)
  : error + nat :=
  match frames with
  | [] => inl AttributeError
  | co_filename :: f_back =>
      if String.eqb co_filename logging_file
      then find_caller logging_file f_back (S depth)
      else inr depth
  end.

(** [emit(record)]: the level, depth and message handed to
    [logger.opt(depth=...).log]. *)
Definition emit (registered : list string) (logging_file : string)
    (frames : list string) (record : LogRecord)
  : error + ((string + nat) * nat * string) :=
  let level := level_of registered record in
  match find_caller logging_file frames 2 with
  | inl e => inl e
  | inr depth => inr (level, depth, getMessage record)
  end.

End InterceptHandler.

(** ** Vocabulary of the further properties *)

(** The value ranges of [datetime] on which [strftime] prints fields of
    fixed width. *)
Definition datetime_in_range (dt : datetime) : Prop :=
  (1000 <= Z.of_nat (year dt) <= 9999 /\
   1 <= Z.of_nat (month dt) <= 12 /\
   1 <= Z.of_nat (day dt) <= 31 /\
   Z.of_nat (hour dt) < 24 /\
   Z.of_nat (minute dt) < 60 /\
   Z.of_nat (second dt) < 60 /\
   Z.of_nat (microsecond dt) < 1000000)%Z.

(** Two times that agree on every field except the seconds. *)
Definition same_but_seconds (dt1 dt2 : datetime) : Prop :=
  year dt1 = year dt2 /\ month dt1 = month dt2 /\ day dt1 = day dt2 /\
  hour dt1 = hour dt2 /\ minute dt1 = minute dt2 /\
  microsecond dt1 = microsecond dt2.

(** What the handler logs before it calls [create_epub]. *)
Definition request_log (req : request) (url part : string) : list event :=
  [Log INFO ("Prepub parts requested by client: " +:+ remote_addr req);
   Log DEBUG ("Requested JNC URL: " +:+ url);
   match part with
   | String _ _ => Log INFO ("Requested parts: " +:+ part)
   | EmptyString => Log INFO "Requested ALL"
   end].

(** The events of a [create_epub] whose generation run returns. *)
Definition creation_log (proc : process) (url part dirpath : string) : list event :=
  [Enter_create_epub url part;
   Log INFO ("Generating epub(s) at " +:+ dirpath);
   Call_generate_epub (generation_call proc url part dirpath);
   Log INFO "Epub(s) generated"].

(** The events of the handler after the packager has returned. *)
Definition delivery_log (parent : Path) (name : string) : list event :=
  [Log DEBUG "Deleting epub(s)";
   Call_rmtree parent;
   Log INFO "Sending requested epub(s)";
   Call_send_file name].

(** The events of the packager: its entry and its log line. *)
Definition is_packager_event (e : event) : bool :=
  match e with
  | Enter_make_one_bytesio_file _ | Log _ _ => true
  | _ => false
  end.

(** What an event of a request may be: a generation call carries the
    form fields as submitted, the working directory of the request and
    the options of the process; an [rmtree] call names the directory of
    the caller address. *)
Definition handler_event (proc : process) (req : request) (dt : datetime)
    (e : event) : Prop :=
  match e with
  | Call_generate_epub c =>
      exists url part out,
        form req !! "jnovelclub_url" = Some url /\
        form req !! "prepub_parts" = Some part /\
        environ proc !! "JNCEP_OUTPUT" = Some out /\
        c = generation_call proc url part (working_directory out req dt)
  | Call_rmtree p =>
      exists out,
        environ proc !! "JNCEP_OUTPUT" = Some out /\
        p = PurePath.of_string (caller_directory out req)
  | _ => True
  end.

(** The outcome of [create_epub] once the working directory is made and
    the file system is [root1]: what the generation library makes of it. *)
Definition generation_outcome {gen : GenerationLibrary} (proc : process)
    (req : request) (url part out : string) (w : world) (root1 : node)
  : result string * world :=
  let dirpath := working_directory out req (now w) in
  let call := generation_call proc url part dirpath in
  (match fst (generate_epub_callback call root1) with
   | Some e => Raise e
   | None => Return dirpath
   end,
   {| fs := snd (generate_epub_callback call root1);
      now := now w;
      trace := trace w ++
        [Enter_create_epub url part;
         Log INFO ("Generating epub(s) at " +:+ dirpath);
         Call_generate_epub call] ++
        match fst (generate_epub_callback call root1) with
        | Some _ => []
        | None => [Log INFO "Epub(s) generated"]
        end |}).

(** A run from [w] keeps the clock and appends events that satisfy [P]. *)
Definition appends {A} (P : event -> Prop) (m : M A) (w : world) : Prop :=
  exists evs,
    trace (snd (m w)) = trace w ++ evs /\
    now (snd (m w)) = now w /\
    Forall P evs.

(** A component that names an entry: not empty, not [.] or [..], and
    without a separator.  On paths of such components the lookup of the
    model is the resolution of the operating system. *)
Definition entry_name (c : string) : bool :=
  negb (String.eqb c "") && negb (String.eqb c ".") &&
  negb (String.eqb c "..") && negb (Str.contains_char PurePath.sep c).

(** Neither path leads to the other. *)
Definition unrelated (p q : list string) : Prop :=
  ~ p `prefix_of` q /\ ~ q `prefix_of` p.

(** ** Further concrete processes and file systems *)

Module Scenario.

(** A process started by the entry point, with its credentials in the
    environment. *)
Definition started : process :=
  {| environ := {[ "JNCEP_OUTPUT" := "/srv/out";
                   "JNCEP_EMAIL" := "reader@example.org";
                   "JNCEP_PASSWORD" := "secret" ]};
     args := startup_args "reader@example.org" "secret";
     cwd := ["srv"; "app"] |}.

(** A process without an output root. *)
Definition rootless : process :=
  {| environ := {[ "JNCEP_EMAIL" := "reader@example.org";
                   "JNCEP_PASSWORD" := "secret" ]};
     args := startup_args "reader@example.org" "secret";
     cwd := ["srv"; "app"] |}.

(** The same minute and microsecond as [Fixture.clock], other seconds. *)
Definition later_second : datetime := mkDatetime 2024 1 2 3 4 59 6.

(** A regular file where the directory of caller 10.0.0.7 should be. *)
Definition blocked : node :=
  Dir [("srv", Dir [("out", Dir [("10.0.0.7", File 1600000000 [])])])].

(** The working directory of the request at [Fixture.clock] exists
    already and holds a volume of an earlier request. *)
Definition collided : node :=
  Dir [("srv", Dir [("out", Dir [("10.0.0.7",
     Dir [("2024-01-02_03-04_000006",
           Dir [("Other_Volume_1.epub", File 1600000000 Fixture.vol1)])])])])].

(** The output root with a working directory of another caller address. *)
Definition two_callers : node :=
  Dir [("srv", Dir [("out", Dir [("10.0.0.9",
     Dir [("2024-01-02_03-03_000001",
           Dir [("Theirs_Volume_1.epub", File 1600000000 Fixture.vol2)])])])])].

(** Two volumes next to files that are no volumes. *)
Definition volumes_and_more : list (string * node) :=
  [("cover.jpg", File 1700000000 [x01]);
   ("MySeries_Volume_1.epub", File 1700000000 Fixture.vol1);
   ("notes", Dir []);
   ("MySeries_Volume_2.epub", File 1700000060 Fixture.vol2)].

(** A directory whose only [*.epub] entry is a directory. *)
Definition unpacked_entries : list (string * node) :=
  [("MySeries_Volume_1.epub", Dir [("mimetype", File 1700000000 [])])].

(** A complete request. *)
Definition request_all : request :=
  Fixture.post [("jnovelclub_url", Fixture.series_url); ("prepub_parts", "")].

(** A generation run that returns without writing a file. *)
Definition silent_generation : GenerationLibrary := writing_generation [].

(** The working directory of [request_all] at [Fixture.clock]. *)
Definition dirpath : string := "/srv/out/10.0.0.7/2024-01-02_03-04_000006".

(** The file system after [create_epub] has made the working directory. *)
Definition after_mkdir (root : node) : node :=
  match FS.makedirs (parts (PurePath.of_string dirpath)) root with
  | inr root1 => root1
  | inl _ => root
  end.

(** The file system that a generation run for [request_all] leaves. *)
Definition generated (gen : GenerationLibrary) (root : node) : node :=
  snd (generate_epub_callback
         (generation_call Fixture.proc Fixture.series_url "" dirpath)
         (after_mkdir root)).

End Scenario.

(** * Facts about strings *)

Section StrFacts.

Implicit Types (s a b sub : string) (c : ascii).

Lemma append_assoc a b s : (a +:+ b) +:+ s = a +:+ (b +:+ s).
Proof. induction a as [|x a IH]; simpl; [reflexivity | now f_equal]. Qed.

Lemma append_nil_r a : a +:+ "" = a.
Proof. induction a as [|x a IH]; simpl; [reflexivity | now f_equal]. Qed.

Lemma append_length a b : String.length (a +:+ b) = String.length a + String.length b.
Proof. induction a as [|x a IH]; simpl; [reflexivity | now f_equal]. Qed.

Lemma startswith_length sub s :
  Str.startswith sub s = true -> String.length sub <= String.length s.
Proof.
  revert s; induction sub as [|x sub IH]; intros [|y s]; simpl; try lia; try discriminate.
  intros [_ Hs]%andb_true_iff. specialize (IH _ Hs). lia.
Qed.

(** Only the first [length sub] characters of the haystack matter. *)
Lemma startswith_app_long sub a b :
  String.length sub <= String.length a ->
  Str.startswith sub (a +:+ b) = Str.startswith sub a.
Proof.
  revert a; induction sub as [|x sub IH]; intros [|y a]; simpl; try reflexivity; try lia.
  intros Hlen. rewrite IH by lia. reflexivity.
Qed.

Lemma find_length sub s i :
  Str.find sub s = Some i -> i + String.length sub <= String.length s.
Proof.
  revert i; induction s as [|y s IH]; intros i; simpl.
  - destruct (Str.startswith sub "") eqn:E; [|discriminate].
    intros [= <-]. apply startswith_length in E. simpl in *. lia.
  - destruct (Str.startswith sub (String y s)) eqn:E.
    + intros [= <-]. apply startswith_length in E. simpl in *. lia.
    + destruct (Str.find sub s) as [j|]; simpl; [|discriminate].
      intros [= <-]. specialize (IH _ eq_refl). lia.
Qed.

(** The first occurrence in a prefix is the first occurrence in the whole. *)
Lemma find_app sub a b i :
  Str.find sub a = Some i -> Str.find sub (a +:+ b) = Some i.
Proof.
  revert i; induction a as [|y a IH]; intros i Hf.
  - simpl in Hf. destruct (Str.startswith sub "") eqn:E; [|discriminate].
    destruct sub; [|discriminate]. injection Hf as <-. now destruct b.
  - pose proof (find_length _ _ _ Hf) as Hlen.
    cbn [Str.find] in Hf. cbn [String.append Str.find].
    change (String y (a +:+ b)) with (String y a +:+ b).
    destruct (Str.startswith sub (String y a)) eqn:E.
    + rewrite startswith_app_long, E by (apply startswith_length; exact E). exact Hf.
    + destruct (Str.find sub a) as [j|] eqn:Ej; simpl in Hf; [|discriminate].
      injection Hf as <-.
      rewrite startswith_app_long, E by (simpl in *; lia).
      now rewrite (IH _ eq_refl).
Qed.

Lemma find_app_None sub a b :
  Str.find sub (a +:+ b) = None -> Str.find sub a = None.
Proof.
  intros Hn. destruct (Str.find sub a) as [i|] eqn:E; [|reflexivity].
  apply (find_app _ _ b) in E. congruence.
Qed.

(** A character that the needle lacks stops every match. *)
Lemma startswith_app_stop sub a b c :
  Str.contains_char c sub = false ->
  Str.startswith sub (a +:+ String c b) = Str.startswith sub a.
Proof.
  revert a; induction sub as [|x sub IH]; intros a Hc; [now destruct a|].
  simpl in Hc. apply orb_false_iff in Hc as [Hx Hsub].
  destruct a as [|y a]; simpl.
  - now rewrite Hx.
  - now rewrite IH.
Qed.

Lemma find_app_stop sub a b c :
  Str.contains_char c sub = false ->
  Str.find sub b = None ->
  Str.find sub (a +:+ String c b) = Str.find sub a.
Proof.
  intros Hc Hb. induction a as [|y a IH].
  - cbn [String.append Str.find]. rewrite Hb.
    change (String c b) with ("" +:+ String c b).
    rewrite startswith_app_stop by exact Hc. now destruct (Str.startswith sub "").
  - cbn [String.append Str.find].
    change (String y (a +:+ String c b)) with (String y a +:+ String c b).
    rewrite startswith_app_stop by exact Hc. now rewrite IH.
Qed.

Lemma slice_to_app i a b :
  i <= String.length a -> Str.slice_to i (a +:+ b) = Str.slice_to i a.
Proof.
  revert a; induction i as [|i IH]; intros [|y a]; simpl; try reflexivity; try lia.
  intros Hlen. now rewrite IH by lia.
Qed.

Lemma slice_to_length a b : Str.slice_to (String.length a) (a +:+ b) = a.
Proof. induction a as [|y a IH]; simpl; [now destruct b | now rewrite IH]. Qed.

Lemma slice_to_prefix i s : exists r, s = Str.slice_to i s +:+ r.
Proof.
  revert s; induction i as [|i IH]; intros s.
  - exists s. now destruct s.
  - destruct s as [|y s]; [now exists ""|].
    destruct (IH s) as [r Hr]. exists r. simpl. now rewrite <- Hr.
Qed.

Lemma endswith_inv suf s : Str.endswith suf s = true -> exists a, s = a +:+ suf.
Proof.
  induction s as [|y s IH]; cbn [Str.endswith].
  - destruct (String.eqb_spec "" suf) as [<-|]; [now exists ""|intros [=]].
  - destruct (String.eqb_spec (String y s) suf) as [<-|].
    + now exists "".
    + intros [a ->]%IH. now exists (String y a).
Qed.

Lemma rfind_app c a b j :
  Str.rfind c b = Some j -> Str.rfind c (a +:+ b) = Some (String.length a + j).
Proof. intros Hb. induction a as [|y a IH]; simpl; [exact Hb | now rewrite IH]. Qed.

Lemma contains_char_app c a b :
  Str.contains_char c (a +:+ b) = Str.contains_char c a || Str.contains_char c b.
Proof. induction a as [|y a IH]; simpl; [reflexivity | now rewrite IH, orb_assoc]. Qed.

Lemma contains_char_cons c x s :
  Ascii.eqb x c = false ->
  Str.contains_char c (String x s) = Str.contains_char c s.
Proof. intros Hx. simpl. now rewrite Hx. Qed.

Lemma contains_char_slice_to c i s :
  Str.contains_char c s = false -> Str.contains_char c (Str.slice_to i s) = false.
Proof.
  destruct (slice_to_prefix i s) as [r Hr]. intros Hc.
  rewrite Hr, contains_char_app in Hc. now apply orb_false_iff in Hc as [-> _].
Qed.

End StrFacts.

(** * Facts about paths *)

Section PathFacts.

Implicit Types (n s d t : string) (p : Path).

Lemma stem_prefix n : exists r, n = PurePath.stem_of_name n +:+ r.
Proof.
  unfold PurePath.stem_of_name.
  destruct (Str.rfind "." n) as [i|]; [|exists ""; now rewrite append_nil_r].
  destruct (_ && _); [apply slice_to_prefix | exists ""; now rewrite append_nil_r].
Qed.

(** The stem of a generated name is the name without [.epub], except for
    the name [.epub] itself. *)
Lemma stem_of_epub a :
  PurePath.stem_of_name (a +:+ ".epub") = if String.eqb a "" then ".epub" else a.
Proof.
  unfold PurePath.stem_of_name.
  rewrite (rfind_app "." a ".epub" 0) by reflexivity.
  rewrite append_length. cbn [String.length].
  destruct a as [|x a]; [reflexivity|].
  replace (0 <? _)%nat with true by (symmetry; apply Nat.ltb_lt; simpl; lia).
  replace (_ <? _)%nat with true by (symmetry; apply Nat.ltb_lt; simpl; lia).
  cbn [andb]. rewrite Nat.add_0_r. apply slice_to_length.
Qed.

(** The token occurs in a generated name exactly where it occurs in its
    stem: it cannot reach into the extension. *)
Lemma find_token_stem n :
  Str.endswith ".epub" n = true ->
  Str.find volume_token (PurePath.stem_of_name n) = Str.find volume_token n.
Proof.
  intros [a ->]%endswith_inv. rewrite stem_of_epub.
  destruct a as [|x a]; [reflexivity|]. cbn [String.eqb].
  symmetry. apply (find_app_stop volume_token (String x a) "epub" "."); reflexivity.
Qed.

Lemma find_token_stem_None n :
  Str.find volume_token n = None ->
  Str.find volume_token (PurePath.stem_of_name n) = None.
Proof.
  destruct (stem_prefix n) as [r Hr]. rewrite Hr at 1. apply find_app_None.
Qed.

Lemma slice_to_stem n i :
  Str.find volume_token (PurePath.stem_of_name n) = Some i ->
  Str.slice_to i (PurePath.stem_of_name n) = Str.slice_to i n.
Proof.
  intros Hf%find_length. destruct (stem_prefix n) as [r Hr].
  rewrite Hr at 2. symmetry. apply slice_to_app. lia.
Qed.

Lemma name_joinpath p n : PurePath.name (PurePath.joinpath p n) = n.
Proof. unfold PurePath.name, PurePath.joinpath; simpl. apply last_last. Qed.

Lemma parent_joinpath p n : PurePath.parent (PurePath.joinpath p n) = p.
Proof.
  unfold PurePath.parent, PurePath.joinpath; simpl.
  rewrite removelast_last. now destruct p.
Qed.

Lemma split_nonempty c s : Str.split c s <> [].
Proof.
  destruct s as [|x s]; simpl; [discriminate|].
  destruct (Ascii.eqb x c); [discriminate|]. now destruct (Str.split c s).
Qed.

Lemma split_app c a b :
  Str.split c (a +:+ String c b) = Str.split c a ++ Str.split c b.
Proof.
  induction a as [|x a IH]; simpl.
  - now rewrite Ascii.eqb_refl.
  - destruct (Ascii.eqb x c); [now rewrite IH|].
    rewrite IH. pose proof (split_nonempty c a).
    now destruct (Str.split c a).
Qed.

Lemma split_single c s : Str.contains_char c s = false -> Str.split c s = [s].
Proof.
  induction s as [|x s IH]; simpl; [reflexivity|].
  intros [-> Hs]%orb_false_iff. now rewrite IH.
Qed.

(** Appending one plain component to a path string appends it to the
    parsed path. *)
Lemma of_string_child d t :
  d <> "" ->
  Str.contains_char PurePath.sep t = false ->
  PurePath.keep_part t = true ->
  PurePath.of_string (d +:+ "/" +:+ t) = PurePath.joinpath (PurePath.of_string d) t.
Proof.
  intros Hd Hsep Hkeep. unfold PurePath.of_string, PurePath.joinpath. cbn [anchor parts].
  f_equal.
  - destruct d as [|x d]; [congruence|]. simpl. now destruct d.
  - change ("/" +:+ t) with (String PurePath.sep t).
    rewrite split_app, (split_single _ t Hsep), List.filter_app.
    simpl. now rewrite Hkeep.
Qed.

Lemma digit_not_sep k : Ascii.eqb (Datetime.digit k) PurePath.sep = false.
Proof. do 10 (destruct k as [|k]; [reflexivity|]). reflexivity. Qed.

Lemma zero_pad_plain w k :
  Str.contains_char PurePath.sep (Datetime.zero_pad w k) = false.
Proof.
  revert k; induction w as [|w IH]; intros k; simpl; [reflexivity|].
  rewrite contains_char_app, IH. simpl. now rewrite digit_not_sep.
Qed.

Lemma zero_pad_length w k : String.length (Datetime.zero_pad w k) = w.
Proof.
  revert k; induction w as [|w IH]; intros k; simpl; [reflexivity|].
  rewrite append_length, IH. simpl. lia.
Qed.

(** A formatted timestamp is one plain path component. *)
Lemma strftime_component dt :
  Str.contains_char PurePath.sep (Datetime.strftime dt) = false /\
  PurePath.keep_part (Datetime.strftime dt) = true.
Proof.
  unfold Datetime.strftime. split.
  - repeat (rewrite contains_char_app, zero_pad_plain; cbn [orb String.append];
            rewrite contains_char_cons by reflexivity).
    apply zero_pad_plain.
  - assert (Hlen : 2 <= String.length (Datetime.zero_pad 4 (year dt))) by (rewrite zero_pad_length; lia).
    destruct (Datetime.zero_pad 4 (year dt)) as [|x [|y z]]; simpl in Hlen; try lia.
    unfold PurePath.keep_part. cbn [String.append String.eqb].
    now destruct (Ascii.eqb x ".").
Qed.

End PathFacts.

(** * Facts about the file system *)

Section FSFacts.

Implicit Types (p q : list string) (n : node) (es : list (string * node)).

Lemma lookup_app p q n :
  FS.lookup (p ++ q) n =
  match FS.lookup p n with
  | Some m => FS.lookup q m
  | None => None
  end.
Proof.
  revert n; induction p as [|c p IH]; intros n; simpl; [reflexivity|].
  destruct n as [|es]; [reflexivity|].
  destruct (FS.entry_lookup c es); [apply IH | reflexivity].
Qed.

Lemma lookup_below_file q t d : q <> [] -> FS.lookup q (File t d) = None.
Proof. now destruct q. Qed.

Lemma entry_lookup_alter f c es :
  FS.entry_lookup c (FS.entry_alter f c es) = f <$> FS.entry_lookup c es.
Proof.
  induction es as [|[k x] es IH]; simpl; [reflexivity|].
  destruct (String.eqb k c) eqn:E; simpl; rewrite E; [reflexivity | exact IH].
Qed.

Lemma entry_lookup_remove c es : FS.entry_lookup c (FS.entry_remove c es) = None.
Proof.
  induction es as [|[k x] es IH]; simpl; [reflexivity|].
  destruct (String.eqb k c) eqn:E; simpl; [exact IH | now rewrite E].
Qed.

Lemma entry_lookup_In es c x :
  NoDup (List.map fst es) -> In (c, x) es -> FS.entry_lookup c es = Some x.
Proof.
  induction es as [|[k y] es IH]; simpl; [tauto|].
  intros [Hk Hnd]%list.NoDup_cons [[= -> ->]|Hin].
  - now rewrite String.eqb_refl.
  - destruct (String.eqb_spec k c) as [->|_]; [|now apply IH].
    exfalso. apply Hk. apply list_elem_of_In.
    change c with (fst (c, x)). now apply in_map.
Qed.

(** After [rmtree p] nothing is left below [p]. *)
Lemma rmtree_below p q n : q <> [] -> FS.lookup (p ++ q) (FS.rmtree p n) = None.
Proof.
  intros Hq. revert n; induction p as [|c p IH]; intros n.
  - destruct n; simpl; now destruct q.
  - destruct n as [t d|es]; [now destruct p|].
    destruct p as [|c' p].
    + cbn [FS.rmtree app]. destruct (FS.entry_lookup c es) as [[t d|es']|] eqn:E.
      * cbn [FS.lookup]. rewrite E. now apply lookup_below_file.
      * cbn [FS.lookup]. now rewrite entry_lookup_remove.
      * cbn [FS.lookup]. now rewrite E.
    + change (FS.rmtree (c :: c' :: p) (Dir es))
        with (Dir (FS.entry_alter (FS.rmtree (c' :: p)) c es)).
      change ((c :: c' :: p) ++ q) with (c :: ((c' :: p) ++ q)).
      cbn [FS.lookup]. rewrite entry_lookup_alter.
      destruct (FS.entry_lookup c es); simpl; [apply IH | reflexivity].
Qed.

Lemma epub_entries_names es :
  List.filter (Str.endswith ".epub") (List.map fst es) = List.map fst (epub_entries es).
Proof.
  unfold epub_entries. induction es as [|[k x] es IH]; simpl; [reflexivity|].
  destruct (Str.endswith ".epub" k); simpl; now rewrite IH.
Qed.

End FSFacts.

(** * Facts about the monad *)

Section MonadFacts.

Context {A B : Type}.

Lemma bind_Return_inv (m : M A) (k : A -> M B) w b w' :
  bind m k w = (Return b, w') ->
  exists a w1, m w = (Return a, w1) /\ k a w1 = (Return b, w').
Proof.
  unfold bind. destruct (m w) as [[a|e] w1]; [eauto | discriminate].
Qed.

End MonadFacts.

(** * The output packager *)

Section Packager.

Context {zip : ZipLibrary} (proc : process).

Implicit Types (d : Path) (w : world) (es : list (string * node)).

Lemma resolve_joinpath d n :
  resolve proc (PurePath.joinpath d n) = resolve proc d ++ [n].
Proof.
  unfold resolve, PurePath.joinpath; simpl.
  destruct (anchor d); [reflexivity | now rewrite app_assoc].
Qed.

Lemma lookup_child d n root es :
  FS.lookup (resolve proc d) root = Some (Dir es) ->
  FS.lookup (resolve proc (PurePath.joinpath d n)) root = FS.entry_lookup n es.
Proof.
  intros Hd. rewrite resolve_joinpath, lookup_app, Hd. simpl.
  now destruct (FS.entry_lookup n es).
Qed.

Lemma glob_epub_run d w :
  glob_epub proc d w
  = (Return (List.map (PurePath.joinpath d) (epub_names proc d (fs w))), w).
Proof.
  unfold glob_epub, epub_names, bind, get_fs.
  destruct (FS.lookup (resolve proc d) (fs w)) as [[|es]|]; try reflexivity.
  now rewrite epub_entries_names.
Qed.

Lemma epub_names_dir d root es :
  FS.lookup (resolve proc d) root = Some (Dir es) ->
  epub_names proc d root = List.map fst (epub_entries es).
Proof. intros Hd. unfold epub_names. now rewrite Hd. Qed.

Lemma entry_lookup_listed es n :
  In n (List.map fst es) -> is_Some (FS.entry_lookup n es).
Proof.
  induction es as [|[k x] es IH]; simpl; [tauto|].
  intros [->|Hin]; [rewrite String.eqb_refl; eauto|].
  destruct (String.eqb k n); eauto.
Qed.

(** Writing the listed entries of [d] into the archive never fails. *)
Lemma zip_write_all d w es names :
  FS.lookup (resolve proc d) (fs w) = Some (Dir es) ->
  (forall n, In n names -> In n (List.map fst es)) ->
  mapM (fun file => ZipFile_write proc file (PurePath.name file))
       (List.map (PurePath.joinpath d) names) w
  = (Return (List.map (member_of es) names), w).
Proof.
  intros Hd. induction names as [|n names IH]; intros Hin; [reflexivity|].
  cbn [List.map mapM]. unfold bind at 1. unfold ZipFile_write at 1.
  unfold bind at 1, get_fs at 1. rewrite (lookup_child _ _ _ _ Hd), name_joinpath.
  destruct (entry_lookup_listed es n (Hin n (or_introl eq_refl))) as [x Hx].
  unfold member_of at 1. rewrite Hx.
  destruct x; cbn [ret]; unfold bind;
    now rewrite IH by (intros; apply Hin; now right).
Qed.

(** ** The three outcomes of a run *)

Lemma packager_single directory w es n :
  FS.lookup (resolve proc (PurePath.of_string directory)) (fs w) = Some (Dir es) ->
  List.map fst (epub_entries es) = [n] ->
  make_one_bytesio_file proc directory w
  = (match FS.entry_lookup n es with
     | Some (File _ data) => Return ({| getvalue := data; tell := 0 |}, n)
     | Some (Dir _) => Raise IsADirectoryError
     | None => Raise FileNotFoundError
     end, logged w [entering directory]).
Proof.
  intros Hd Hn. unfold make_one_bytesio_file, bind, emit.
  rewrite glob_epub_run. cbn [fs]. rewrite (epub_names_dir _ _ _ Hd), Hn.
  cbn [List.map length Nat.eqb list_getitem lookup list_lookup ret].
  unfold read_bytes, bind, get_fs. cbn [fs].
  rewrite (lookup_child _ _ _ _ Hd), name_joinpath.
  now destruct (FS.entry_lookup n es) as [[]|].
Qed.

Lemma packager_archive directory w es :
  FS.lookup (resolve proc (PurePath.of_string directory)) (fs w) = Some (Dir es) ->
  length (epub_entries es) <> 1 ->
  make_one_bytesio_file proc directory w
  = let names := List.map fst (epub_entries es) in
    let w' := logged w [entering directory; zipping (length names)] in
    match names with
    | [] => (Raise IndexError, w')
    | n0 :: _ =>
        match Str.find volume_token (PurePath.stem_of_name n0) with
        | Some i =>
            (Return ({| getvalue := zip_bytes (List.map (member_of es) names);
                        tell := 0 |},
                     Str.slice_to i (PurePath.stem_of_name n0) +:+ ".zip"), w')
        | None => (Raise ValueError, w')
        end
    end.
Proof.
  intros Hd Hlen. unfold make_one_bytesio_file.
  unfold bind at 1, emit at 1. unfold bind at 1. rewrite glob_epub_run. cbn [fs].
  rewrite (epub_names_dir _ _ _ Hd), List.length_map, List.length_map.
  destruct (Nat.eqb_spec (length (epub_entries es)) 1) as [|_]; [contradiction|].
  unfold bind at 1, logger at 1, emit at 1. unfold bind at 1.
  rewrite (zip_write_all _ _ es); cycle 1.
  { exact Hd. }
  { intros n Hin. unfold epub_entries in Hin.
    apply in_map_iff in Hin as [e [<- He]]. apply filter_In in He as [He _].
    now apply in_map. }
  cbv zeta. unfold logged. cbn [trace fs now]. rewrite <- app_assoc. cbn [app].
  destruct (List.map fst (epub_entries es)) as [|n0 names]; [reflexivity|].
  unfold bind, list_getitem, str_index, PurePath.stem. cbn [List.map lookup list_lookup ret].
  rewrite name_joinpath.
  unfold volume_token.
  now destruct (Str.find "_Volume_" (PurePath.stem_of_name n0)).
Qed.

Lemma packager_empty directory w :
  epub_names proc (PurePath.of_string directory) (fs w) = [] ->
  make_one_bytesio_file proc directory w
  = (Raise IndexError, logged w [entering directory; zipping 0]).
Proof.
  intros Hn. unfold make_one_bytesio_file, bind, emit.
  rewrite glob_epub_run. cbn [fs]. rewrite Hn. cbn.
  unfold logged. now rewrite <- app_assoc.
Qed.

End Packager.

(** ** Properties of the packager *)

Section PackagerProperties.

Context {zip : ZipLibrary} (proc : process).

Implicit Types (w : world) (es : list (string * node)).

Lemma epub_entries_endswith es e :
  In e (epub_entries es) -> Str.endswith ".epub" (fst e) = true.
Proof. unfold epub_entries. now intros [_ He]%filter_In. Qed.

Lemma epub_entries_In es e : In e (epub_entries es) -> In e es.
Proof. unfold epub_entries. now intros [He _]%filter_In. Qed.

(** A directory with a single generated entry resolves its name to it. *)
Lemma entry_lookup_only es n x :
  epub_entries es = [(n, x)] -> FS.entry_lookup n es = Some x.
Proof.
  assert (Hn : epub_entries es = [(n, x)] -> Str.endswith ".epub" n = true).
  { intros He. apply (epub_entries_endswith es (n, x)). rewrite He. now left. }
  unfold epub_entries in *.
  induction es as [|[k y] es IH]; cbn [List.filter fst FS.entry_lookup]; [discriminate|].
  cbn [List.filter fst] in Hn.
  destruct (Str.endswith ".epub" k) eqn:Ek.
  - intros [= -> -> _]. now rewrite String.eqb_refl.
  - intros He. destruct (String.eqb_spec k n) as [->|_]; [|now apply IH].
    rewrite (Hn He) in Ek. discriminate.
Qed.

(** Decompressing what was written gives back the generated files. *)
Lemma extracted_members es l :
  NoDup (List.map fst es) ->
  (forall e, In e l -> In e es) ->
  Forall (fun e => is_file (snd e) = true) l ->
  extracted (List.map (member_of es) (List.map fst l))
  = List.map (fun e => (fst e, file_bytes (snd e))) l.
Proof.
  intros Hnd. induction l as [|[k x] l IH]; intros Hsub Hfiles; [reflexivity|].
  apply list.Forall_cons in Hfiles as [Hx Hfiles].
  cbn [List.map extracted fst snd]. unfold extracted in IH.
  rewrite IH by (auto; intros; apply Hsub; now right).
  unfold member_of. rewrite (entry_lookup_In es k x Hnd) by (apply Hsub; now left).
  now destruct x.
Qed.

(** The members written for entries that [zipfile] accepts are members
    that it accepts. *)
Lemma storable_members es l :
  NoDup (List.map fst es) ->
  (forall e, In e l -> In e es) ->
  Forall (fun e => is_file (snd e) = true) l ->
  Forall storable_entry l ->
  Forall storable_member (List.map (member_of es) (List.map fst l)).
Proof.
  intros Hnd. induction l as [|[k x] l IH]; intros Hsub Hfiles Hst; [constructor|].
  apply list.Forall_cons in Hfiles as [Hx Hfiles].
  apply list.Forall_cons in Hst as [[Hname Htime] Hst].
  cbn [List.map fst snd] in *. constructor.
  - unfold member_of. rewrite (entry_lookup_In es k x Hnd) by (apply Hsub; now left).
    destruct x; [now split | discriminate].
  - apply IH; auto. intros; apply Hsub; now right.
Qed.

Lemma contains_char_stem c n :
  Str.contains_char c n = false ->
  Str.contains_char c (PurePath.stem_of_name n) = false.
Proof.
  destruct (stem_prefix n) as [r Hr]. intros Hc.
  rewrite Hr, contains_char_app in Hc. now apply orb_false_iff in Hc as [-> _].
Qed.

Lemma archive_name_without_separator sep n i :
  In sep separators ->
  Str.contains_char sep n = false ->
  Str.contains_char sep (Str.slice_to i (PurePath.stem_of_name n) +:+ ".zip") = false.
Proof.
  intros Hsep Hn.
  rewrite contains_char_app, contains_char_slice_to by (now apply contains_char_stem).
  destruct Hsep as [<-|[<-|[]]]; reflexivity.
Qed.

(** The packager only appends to the trace. *)
Lemma packager_logged directory w :
  exists evs, snd (make_one_bytesio_file proc directory w) = logged w evs.
Proof.
  destruct (FS.lookup (resolve proc (PurePath.of_string directory)) (fs w))
    as [[t d|es]|] eqn:Hd.
  - rewrite packager_empty; [now eexists | unfold epub_names; now rewrite Hd].
  - destruct (decide (length (epub_entries es) = 1)) as [Hone|Hmany].
    + destruct (epub_entries es) as [|[n x] [|? ?]] eqn:He; try discriminate.
      rewrite (packager_single _ _ _ es n Hd); [now eexists | now rewrite He].
    + rewrite (packager_archive _ _ _ es Hd Hmany). cbv zeta.
      destruct (List.map fst (epub_entries es)); [now eexists|].
      destruct (Str.find volume_token _); now eexists.
  - rewrite packager_empty; [now eexists | unfold epub_names; now rewrite Hd].
Qed.

(** The packager never changes the file system. *)
Lemma packager_keeps_fs directory w :
  fs (snd (make_one_bytesio_file proc directory w)) = fs w.
Proof. destruct (packager_logged directory w) as [evs ->]. reflexivity. Qed.

(** The outcome is a function of what the directory holds. *)
Lemma packager_outcome_of_directory directory w1 w2 :
  FS.lookup (resolve proc (PurePath.of_string directory)) (fs w1)
  = FS.lookup (resolve proc (PurePath.of_string directory)) (fs w2) ->
  fst (make_one_bytesio_file proc directory w1)
  = fst (make_one_bytesio_file proc directory w2).
Proof.
  intros Hsame.
  destruct (FS.lookup (resolve proc (PurePath.of_string directory)) (fs w2))
    as [[t d|es]|] eqn:Hd.
  - rewrite !packager_empty; [reflexivity | unfold epub_names ..]; now rewrite ?Hsame, ?Hd.
  - destruct (decide (length (epub_entries es) = 1)) as [Hone|Hmany].
    + destruct (epub_entries es) as [|[n x] [|? ?]] eqn:He; try discriminate.
      rewrite (packager_single _ _ w1 es n Hsame), (packager_single _ _ w2 es n Hd);
        [reflexivity | now rewrite He ..].
    + rewrite (packager_archive _ _ w1 es Hsame Hmany), (packager_archive _ _ w2 es Hd Hmany).
      cbv zeta. destruct (List.map fst (epub_entries es)); [reflexivity|].
      now destruct (Str.find volume_token _).
  - rewrite !packager_empty; [reflexivity | unfold epub_names ..]; now rewrite ?Hsame, ?Hd.
Qed.

End PackagerProperties.

(** * The claims about the packager *)

Section PackagerClaims.

Context {zip : ZipLibrary} (proc : process).

(** C1 (as amended): for every directory that holds N>1 generated files,
    all regular files that [zipfile] accepts (names in well-formed
    UTF-8, modification times that the ZIP format stores in every time
    zone), whose first file's name contains the token [_Volume_], the
    packager returns an archive rewound to its start; decompressing it
    yields exactly those N files under their base names with their
    bytes, in enumeration order; and the download name is the first
    file's name cut at the first occurrence of the token, followed by
    [.zip]. *)
Theorem archive_of_generated_files directory w es n0 i :
  FS.lookup (resolve proc (PurePath.of_string directory)) (fs w) = Some (Dir es) ->
  NoDup (List.map fst es) ->
  Forall (fun e => is_file (snd e) = true) (epub_entries es) ->
  Forall storable_entry (epub_entries es) ->
  1 < length (epub_entries es) ->
  head (List.map fst (epub_entries es)) = Some n0 ->
  Str.find volume_token n0 = Some i ->
  exists payload w' members,
    make_one_bytesio_file proc directory w
    = (Return (payload, Str.slice_to i n0 +:+ ".zip"), w') /\
    fs w' = fs w /\
    tell payload = 0 /\
    zip_members (BytesIO_read payload) = Some members /\
    extracted members = directory_files es /\
    length members = length (epub_entries es).
Proof.
  intros Hd Hnd Hfiles Hstorable Hmany Hhead Htoken.
  rewrite (packager_archive _ _ _ es Hd) by lia. cbv zeta.
  assert (Hext : Str.endswith ".epub" n0 = true).
  { destruct (epub_entries es) as [|[k x] l] eqn:He; [discriminate|].
    injection Hhead as <-.
    apply (epub_entries_endswith es (k, x)). rewrite He. now left. }
  destruct (zip_members_bytes
              (List.map (member_of es) (List.map fst (epub_entries es))))
    as (members & Hread & Hsame).
  { apply storable_members; [assumption | apply epub_entries_In | assumption ..]. }
  assert (Hextracted : extracted members = directory_files es).
  { unfold extracted. rewrite Hsame.
    apply extracted_members; [assumption | apply epub_entries_In | assumption]. }
  assert (Hlength : length members = length (epub_entries es)).
  { rewrite <- (List.length_map (fun m => (filename m, member_data m)) members).
    now rewrite Hsame, !List.length_map. }
  destruct (List.map fst (epub_entries es)) as [|k names] eqn:Hnames; [discriminate|].
  injection Hhead as ->.
  rewrite (find_token_stem _ Hext), Htoken.
  rewrite (slice_to_stem n0 i) by now rewrite (find_token_stem _ Hext).
  eexists _, _, members. split; [reflexivity|].
  split; [reflexivity|]. split; [reflexivity|].
  split; [exact Hread|]. now split.
Qed.

(** C2: for every directory that holds exactly one generated file, the
    packager returns that file's bytes verbatim, read from the start,
    paired with the file's own base name. *)
Theorem single_file_verbatim directory w es n t data :
  FS.lookup (resolve proc (PurePath.of_string directory)) (fs w) = Some (Dir es) ->
  epub_entries es = [(n, File t data)] ->
  exists payload w',
    make_one_bytesio_file proc directory w = (Return (payload, n), w') /\
    fs w' = fs w /\
    getvalue payload = data /\
    BytesIO_read payload = data.
Proof.
  intros Hd He.
  rewrite (packager_single _ _ _ es n Hd) by now rewrite He.
  rewrite (entry_lookup_only _ _ _ He).
  eexists _, _. repeat split; reflexivity.
Qed.

(** C3: for every directory without a generated file (and for a path that
    is no directory), the packager raises an error, [IndexError], and
    returns no payload. *)
Theorem no_output_is_an_error directory w :
  epub_names proc (PurePath.of_string directory) (fs w) = [] ->
  exists w',
    make_one_bytesio_file proc directory w = (Raise IndexError, w') /\
    fs w' = fs w.
Proof.
  intros Hnone. rewrite (packager_empty _ _ _ Hnone).
  eexists. split; reflexivity.
Qed.

(** C4: for every directory that holds more than one generated entry and
    whose first entry's name lacks the token [_Volume_], the packager
    raises [ValueError] and returns no name. *)
Theorem missing_token_is_an_error directory w es n0 :
  FS.lookup (resolve proc (PurePath.of_string directory)) (fs w) = Some (Dir es) ->
  1 < length (epub_entries es) ->
  head (List.map fst (epub_entries es)) = Some n0 ->
  Str.find volume_token n0 = None ->
  exists w',
    make_one_bytesio_file proc directory w = (Raise ValueError, w') /\
    fs w' = fs w.
Proof.
  intros Hd Hmany Hhead Htoken.
  rewrite (packager_archive _ _ _ es Hd) by lia. cbv zeta.
  destruct (List.map fst (epub_entries es)) as [|k names]; [discriminate|].
  injection Hhead as ->.
  rewrite (find_token_stem_None _ Htoken).
  eexists. split; reflexivity.
Qed.

(** C8: on both branches, when no entry name of the directory contains a
    path separator (as in every directory listing), the download name
    that the packager returns contains no path separator either. *)
Theorem download_name_is_basename directory w payload name w' sep :
  In sep separators ->
  (forall n, In n (epub_names proc (PurePath.of_string directory) (fs w)) ->
             Str.contains_char sep n = false) ->
  make_one_bytesio_file proc directory w = (Return (payload, name), w') ->
  Str.contains_char sep name = false.
Proof.
  intros Hsep Hnames. unfold epub_names in Hnames.
  destruct (FS.lookup (resolve proc (PurePath.of_string directory)) (fs w))
    as [[t d|es]|] eqn:Hd.
  - rewrite packager_empty; [discriminate | unfold epub_names; now rewrite Hd].
  - destruct (decide (length (epub_entries es) = 1)) as [Hone|Hmany].
    + destruct (epub_entries es) as [|[n x] [|? ?]] eqn:He; try discriminate.
      rewrite (packager_single _ _ _ es n Hd) by now rewrite He.
      destruct (FS.entry_lookup n es) as [[]|]; try discriminate.
      intros [= _ <- _]. apply Hnames. now left.
    + rewrite (packager_archive _ _ _ es Hd Hmany). cbv zeta.
      destruct (List.map fst (epub_entries es)) as [|n0 names]; [discriminate|].
      destruct (Str.find volume_token _) as [i|]; [|discriminate].
      intros [= _ <- _].
      apply archive_name_without_separator; [assumption|]. apply Hnames. now left.
  - rewrite packager_empty; [discriminate | unfold epub_names; now rewrite Hd].
Qed.

(** C9: a second call of the packager on a directory that still holds
    what the first call left yields the same outcome as the first: the
    same payload bytes at the same position and the same name (or the
    same error). *)
Theorem packager_idempotent directory w w2 :
  FS.lookup (resolve proc (PurePath.of_string directory)) (fs w2)
  = FS.lookup (resolve proc (PurePath.of_string directory))
      (fs (snd (make_one_bytesio_file proc directory w))) ->
  fst (make_one_bytesio_file proc directory w2)
  = fst (make_one_bytesio_file proc directory w).
Proof.
  rewrite packager_keeps_fs. apply packager_outcome_of_directory.
Qed.

End PackagerClaims.

(** * The request handler *)

Section Handler.

Context {zip : ZipLibrary} {gen : GenerationLibrary} (proc : process).

Implicit Types (req : request) (w : world).

Ltac bind_inv H :=
  repeat
    (let a := fresh "a" in
     let w := fresh "w" in
     let Hm := fresh "Hm" in
     apply bind_Return_inv in H as (a & w & Hm & H)).

Lemma getitem_Return e k (dict : gmap string string) w v w' :
  getitem e k dict w = (Return v, w') -> dict !! k = Some v /\ w' = w.
Proof.
  unfold getitem. destruct (dict !! k); [|discriminate].
  now intros [= -> ->].
Qed.

(** What [create_epub] does once the output root is configured and the
    working directory could be made: it calls the generation library and
    passes on its failure, or returns the working directory. *)
Lemma create_epub_run req jnc_url part_spec w out root1 :
  environ proc !! "JNCEP_OUTPUT" = Some out ->
  let dirpath := working_directory out req (now w) in
  let call := generation_call proc jnc_url part_spec dirpath in
  FS.makedirs (resolve proc (PurePath.of_string dirpath)) (fs w) = inr root1 ->
  create_epub proc req jnc_url part_spec w
  = (match fst (generate_epub_callback call root1) with
     | Some e => Raise e
     | None => Return dirpath
     end,
     {| fs := snd (generate_epub_callback call root1);
        now := now w;
        trace := trace w ++
          [Enter_create_epub jnc_url part_spec;
           Log INFO ("Generating epub(s) at " +:+ dirpath);
           Call_generate_epub call] ++
          match fst (generate_epub_callback call root1) with
          | Some _ => []
          | None => [Log INFO "Epub(s) generated"]
          end |}).
Proof.
  intros Hout dirpath call Hmk.
  unfold create_epub, bind, emit, datetime_now, getitem, Path_mkdir, get_fs, put_fs,
    logger, generate_epub, emit, bind, get_fs, put_fs.
  cbn [fs now trace]. rewrite Hout. cbn [ret fs now trace].
  fold (working_directory out req (now w)). fold dirpath. rewrite Hmk.
  cbn [fs now trace].
  fold (generation_call proc jnc_url part_spec dirpath). fold call.
  destruct (generate_epub_callback call root1) as [[e|] root2];
    cbn [fst snd fs now trace ret raise]; now rewrite <- !app_assoc.
Qed.

(** A successful [create_epub] returns the working directory of the
    request; it has logged, and called the generation library. *)
Lemma create_epub_Return req jnc_url part_spec w dirpath w1 :
  create_epub proc req jnc_url part_spec w = (Return dirpath, w1) ->
  exists out evs,
    environ proc !! "JNCEP_OUTPUT" = Some out /\
    dirpath = working_directory out req (now w) /\
    now w1 = now w /\
    trace w1 = trace w ++ evs.
Proof.
  intros H.
  destruct (environ proc !! "JNCEP_OUTPUT") as [out|] eqn:Hout; cycle 1.
  { unfold create_epub, bind, emit, datetime_now, getitem in H.
    cbn [fs now trace] in H. now rewrite Hout in H. }
  destruct (FS.makedirs
              (resolve proc (PurePath.of_string (working_directory out req (now w))))
              (fs w)) as [e|root1] eqn:Hmk.
  { unfold create_epub, Path_mkdir, bind, emit, datetime_now, getitem, get_fs in H.
    cbn [fs now trace] in H. rewrite Hout in H. cbn [ret fs now trace] in H.
    fold (working_directory out req (now w)) in H. now rewrite Hmk in H. }
  rewrite (create_epub_run req jnc_url part_spec w out root1 Hout Hmk) in H.
  destruct (fst (generate_epub_callback _ root1)); [discriminate|].
  injection H as <- <-. now eexists _, _.
Qed.

(** The working directory is a child of the caller's directory, named by
    the formatted time. *)
Lemma working_directory_path out req dt :
  PurePath.of_string (working_directory out req dt)
  = PurePath.joinpath (PurePath.of_string (caller_directory out req))
      (Datetime.strftime dt).
Proof.
  unfold working_directory, caller_directory.
  destruct (strftime_component dt) as [Hplain Hkeep].
  rewrite <- (of_string_child _ _) by (try assumption; now destruct out).
  f_equal. now rewrite append_assoc.
Qed.

Lemma emit_Return e w u w' : emit e w = (Return u, w') -> w' = logged w [e].
Proof. unfold emit, logged. now intros [= <-]. Qed.

Lemma shutil_rmtree_Return p w u w' :
  shutil_rmtree proc p w = (Return u, w') ->
  w' = {| fs := FS.rmtree (resolve proc p) (fs w); now := now w;
          trace := trace w ++ [Call_rmtree p] |}.
Proof. unfold shutil_rmtree, bind, emit, get_fs, put_fs. now intros [= <-]. Qed.

(** A successful request: [create_epub] and the packager returned, and
    the file system at the end is the one the packager saw, with the
    parent of the working directory removed. *)
Lemma index_Return req w resp w' :
  index proc req w = (Return resp, w') ->
  exists out root2 evs,
    environ proc !! "JNCEP_OUTPUT" = Some out /\
    fs w' = FS.rmtree
              (resolve proc
                 (PurePath.parent
                    (PurePath.of_string (working_directory out req (now w)))))
              root2 /\
    trace w' = trace w ++ evs /\
    In (Call_rmtree
          (PurePath.parent
             (PurePath.of_string (working_directory out req (now w)))))
       evs.
Proof.
  intros H. unfold index in H. bind_inv H.
  match goal with
  | a : (BytesIO * string)%type |- _ => destruct a as [file_object name]
  end.
  bind_inv H.
  match goal with
  | Hp : make_one_bytesio_file _ ?d ?w0 = (_, ?w1) |- _ =>
      destruct (packager_logged proc d w0) as [pevs Hpevs];
      rewrite Hp in Hpevs; cbn [snd] in Hpevs; subst w1
  end.
  match goal with
  | Hc : create_epub _ _ _ _ _ = _ |- _ =>
      apply create_epub_Return in Hc as (out & cevs & Hout & -> & Hnow & Htrace)
  end.
  destruct (form_get_truthy req "prepub_parts");
    repeat match goal with
           | Hb : bind _ _ _ = (Return _, _) |- _ => bind_inv Hb
           end;
    repeat match goal with
           | Hg : form_getitem _ _ _ = _ |- _ => apply getitem_Return in Hg as [_ ->]
           | Hl : logger _ _ _ = (_, ?w1) |- _ => is_var w1; apply emit_Return in Hl as ->
           | Hl : emit _ _ = (_, ?w1) |- _ => is_var w1; apply emit_Return in Hl as ->
           | Hr : shutil_rmtree _ _ _ = _ |- _ => apply shutil_rmtree_Return in Hr as ->
           end;
    injection H as _ <-;
    cbn [now trace logged] in *;
    (exists out; eexists; eexists; split; [exact Hout|]; split; [reflexivity|]);
    rewrite Htrace; rewrite <- !app_assoc;
    (split; [reflexivity|]);
    rewrite !in_app_iff; cbn [In]; tauto.
Qed.

End Handler.

(** * The claims about the request handler *)

Section HandlerClaims.

Context {zip : ZipLibrary} {gen : GenerationLibrary} (proc : process).

Implicit Types (req : request) (w : world).

(** C5 (as amended): for every request in which the generation library
    raises an error, the handler raises that error without invoking the
    packager; it attempts no removal of the working directory, and the
    file system stays as the generation library left it. *)
Theorem generation_failure_skips_packaging_and_cleanup
    req w url part out root1 e root2 :
  form req !! "jnovelclub_url" = Some url ->
  form req !! "prepub_parts" = Some part ->
  environ proc !! "JNCEP_OUTPUT" = Some out ->
  FS.makedirs
    (resolve proc (PurePath.of_string (working_directory out req (now w))))
    (fs w) = inr root1 ->
  generate_epub_callback
    (generation_call proc url part (working_directory out req (now w))) root1
  = (Some e, root2) ->
  exists w' evs,
    index proc req w = (Raise e, w') /\
    fs w' = root2 /\
    trace w' = trace w ++ evs /\
    existsb is_packaging evs = false /\
    existsb is_rmtree evs = false.
Proof.
  intros Hurl Hpart Hout Hmk Hgen.
  unfold index, bind, logger, emit, form_getitem, getitem, form_get_truthy.
  cbn [fs now trace]. rewrite Hurl, Hpart. cbn [ret fs now trace].
  assert (Hrun : forall w0, fs w0 = fs w -> now w0 = now w ->
            create_epub proc req url part w0
            = (Raise e, {| fs := root2; now := now w;
                           trace := trace w0 ++
                             [Enter_create_epub url part;
                              Log INFO ("Generating epub(s) at " +:+
                                        working_directory out req (now w));
                              Call_generate_epub
                                (generation_call proc url part
                                   (working_directory out req (now w)))] |})).
  { intros w0 Hfs Hnow.
    rewrite (create_epub_run proc req url part w0 out root1 Hout)
      by now rewrite Hfs, Hnow.
    rewrite Hnow, Hgen. cbn [fst snd]. now rewrite app_nil_r. }
  destruct part as [|c part]; cbn [ret fs now trace];
    rewrite Hrun by reflexivity;
    eexists _, _; (split; [reflexivity|]); (split; [reflexivity|]);
    cbn [trace]; rewrite <- !app_assoc; (split; [reflexivity|]);
    split; reflexivity.
Qed.

(** C6 (as amended): for every POST request without the form field
    [jnovelclub_url], the handler raises a bad-request error after its
    first log line, before anything else happens: generation is not
    invoked and the file system is untouched. *)
Theorem missing_url_is_rejected req w :
  form req !! "jnovelclub_url" = None ->
  index proc req w
  = (Raise (BadRequestKeyError "jnovelclub_url"),
     logged w [Log INFO ("Prepub parts requested by client: " +:+ remote_addr req)]) /\
  existsb is_generation
    [Log INFO ("Prepub parts requested by client: " +:+ remote_addr req)] = false.
Proof.
  intros Hurl. split; [|reflexivity].
  unfold index, bind, logger, emit, form_getitem, getitem.
  cbn [fs now trace]. now rewrite Hurl.
Qed.

(** A request without the field [prepub_parts] is logged as a request
    for all parts and then fails on reading the field. *)
Lemma absent_parts_raises req w url :
  form req !! "jnovelclub_url" = Some url ->
  form req !! "prepub_parts" = None ->
  index proc req w
  = (Raise (BadRequestKeyError "prepub_parts"),
     logged w [Log INFO ("Prepub parts requested by client: " +:+ remote_addr req);
               Log DEBUG ("Requested JNC URL: " +:+ url);
               Log INFO "Requested ALL"]).
Proof.
  intros Hurl Hpart.
  unfold index, bind, logger, emit, form_getitem, getitem, form_get_truthy.
  cbn [fs now trace]. rewrite Hurl, Hpart. cbn [ret raise fs now trace].
  unfold logged. now rewrite <- !app_assoc.
Qed.

(** C10: on the success path the handler calls [rmtree] on the parent of
    the working directory, which is the directory of the caller address;
    afterwards no working directory of that caller address is left,
    whatever its timestamp, nor anything below one. *)
Theorem cleanup_removes_caller_directory req w resp w' out :
  environ proc !! "JNCEP_OUTPUT" = Some out ->
  index proc req w = (Return resp, w') ->
  (exists evs,
     trace w' = trace w ++ evs /\
     In (Call_rmtree (PurePath.of_string (caller_directory out req))) evs) /\
  forall (dt : datetime) (below : list string),
    FS.lookup
      (resolve proc (PurePath.of_string (working_directory out req dt)) ++ below)
      (fs w') = None.
Proof.
  intros Hout H.
  apply index_Return in H as (out' & root2 & evs & Hout' & Hfs & Htrace & Hcall).
  rewrite Hout in Hout'. injection Hout' as <-.
  rewrite working_directory_path, parent_joinpath in Hfs, Hcall.
  split; [now exists evs|].
  intros dt below.
  rewrite Hfs, working_directory_path, resolve_joinpath, <- app_assoc.
  now apply rmtree_below.
Qed.

End HandlerClaims.

(** * The claims on concrete requests and directories *)

Import Fixture.

(** Scenario B of the specification. *)
Lemma archive_of_generated_files_witness :
  exists payload w' members,
    packager "/out" (world_of (out_with two_volumes_entries))
    = (Return (payload, "MySeries.zip"), w') /\
    fs w' = out_with two_volumes_entries /\
    tell payload = 0 /\
    zip_members (BytesIO_read payload) = Some members /\
    extracted members
    = [("MySeries_Volume_1.epub", vol1); ("MySeries_Volume_2.epub", vol2)] /\
    length members = 2.
Proof.
  apply (archive_of_generated_files proc "/out"
           (world_of (out_with two_volumes_entries)) two_volumes_entries
           "MySeries_Volume_1.epub" 8).
  - reflexivity.
  - compute_done.
  - repeat constructor.
  - repeat constructor; unfold storable_mtime; simpl; lia.
  - vm_compute. lia.
  - reflexivity.
  - reflexivity.
Defined.

(** Two generated files without the token: the packager returns nothing. *)
Lemma archive_needs_the_token :
  epub_names proc (PurePath.of_string "/out") (out_with unnamed_entries)
  = ["a.epub"; "b.epub"] /\
  fst (packager "/out" (world_of (out_with unnamed_entries))) = Raise ValueError.
Proof. split; vm_compute; reflexivity. Qed.

(** Scenario A of the specification. *)
Lemma single_file_verbatim_witness :
  exists payload w',
    packager "/out" (world_of (out_with one_volume_entries))
    = (Return (payload, "MySeries_Volume_1.epub"), w') /\
    fs w' = out_with one_volume_entries /\
    getvalue payload = vol1 /\
    BytesIO_read payload = vol1.
Proof.
  apply (single_file_verbatim proc "/out" (world_of (out_with one_volume_entries))
           one_volume_entries "MySeries_Volume_1.epub" 1700000000 vol1);
    reflexivity.
Defined.

(** Scenario C of the specification. *)
Lemma no_output_is_an_error_witness :
  exists w',
    packager "/out" (world_of (out_with [])) = (Raise IndexError, w') /\
    fs w' = out_with [].
Proof.
  apply (no_output_is_an_error proc "/out" (world_of (out_with []))).
  reflexivity.
Defined.

Lemma missing_token_is_an_error_witness :
  exists w',
    packager "/out" (world_of (out_with unnamed_entries)) = (Raise ValueError, w') /\
    fs w' = out_with unnamed_entries.
Proof.
  apply (missing_token_is_an_error proc "/out" (world_of (out_with unnamed_entries))
           unnamed_entries "a.epub").
  - reflexivity.
  - vm_compute. lia.
  - reflexivity.
  - reflexivity.
Defined.

Lemma download_name_is_basename_witness :
  Str.contains_char "/" "MySeries.zip" = false.
Proof.
  apply (download_name_is_basename (zip := Stored.library) proc "/out"
           (world_of (out_with two_volumes_entries))
           {| getvalue := zip_bytes
                (List.map (member_of two_volumes_entries)
                   ["MySeries_Volume_1.epub"; "MySeries_Volume_2.epub"]);
              tell := 0 |}
           "MySeries.zip"
           (logged (world_of (out_with two_volumes_entries))
              [entering "/out"; zipping 2])
           "/"%char).
  - now left.
  - vm_compute. intros n [<-|[<-|[]]]; reflexivity.
  - vm_compute. reflexivity.
Defined.

(** The second of two calls in a row returns what the first returned. *)
Lemma packager_idempotent_witness :
  fst (packager "/out"
         (snd (packager "/out" (world_of (out_with two_volumes_entries)))))
  = fst (packager "/out" (world_of (out_with two_volumes_entries))).
Proof.
  apply (packager_idempotent proc "/out").
  reflexivity.
Defined.


(** The generation library fails: the handler calls no [rmtree], and the
    working directory that [create_epub] made is still there. *)
Lemma failed_generation_is_not_cleaned_up :
  let run := handler (failing_generation "no such series")
               (post [("jnovelclub_url", series_url); ("prepub_parts", "")])
               (world_of earlier_request) in
  fst run = Raise (LibraryError "no such series") /\
  existsb is_rmtree (trace (snd run)) = false /\
  FS.lookup ["srv"; "out"; "10.0.0.7"; "2024-01-02_03-04_000006"] (fs (snd run))
  = Some (Dir []).
Proof. vm_compute. repeat split. Qed.

Lemma generation_failure_skips_packaging_and_cleanup_witness :
  exists w' evs,
    handler (failing_generation "no such series")
      (post [("jnovelclub_url", series_url); ("prepub_parts", "")])
      (world_of earlier_request)
    = (Raise (LibraryError "no such series"), w') /\
    fs w' = Dir [("srv", Dir [("out", Dir [("10.0.0.7",
              Dir [("2023-12-31_23-59_000001",
                    Dir [("Old_Volume_1.epub", File 1600000000 vol1)]);
                   ("2024-01-02_03-04_000006", Dir [])])])])] /\
    trace w' = [] ++ evs /\
    existsb is_packaging evs = false /\
    existsb is_rmtree evs = false.
Proof.
  eapply (generation_failure_skips_packaging_and_cleanup
            (zip := Stored.library) (gen := failing_generation "no such series")
            proc _ (world_of earlier_request) series_url "" "/srv/out").
  - reflexivity.
  - reflexivity.
  - reflexivity.
  - vm_compute. reflexivity.
  - reflexivity.
Defined.

(** An empty source URL is passed to the generation library, and the
    request is served. *)
Lemma empty_url_reaches_generation :
  let run := handler two_volumes_generation
               (post [("jnovelclub_url", ""); ("prepub_parts", "")])
               (world_of earlier_request) in
  existsb (generates_from "") (trace (snd run)) = true /\
  fst run = Return series_response.
Proof. vm_compute. split; reflexivity. Qed.

Lemma missing_url_is_rejected_witness :
  handler two_volumes_generation (post [("prepub_parts", "1")])
    (world_of earlier_request)
  = (Raise (BadRequestKeyError "jnovelclub_url"),
     logged (world_of earlier_request)
       [Log INFO "Prepub parts requested by client: 10.0.0.7"]) /\
  existsb is_generation
    [Log INFO "Prepub parts requested by client: 10.0.0.7"] = false.
Proof.
  apply (missing_url_is_rejected (zip := Stored.library)
           (gen := two_volumes_generation) proc
           (post [("prepub_parts", "1")]) (world_of earlier_request)).
  reflexivity.
Defined.

(** C7 (the code departs from the claim): a POST request that carries a
    source URL and no [prepub_parts] field is logged as a request for all
    parts and then fails with a bad-request error for the missing field;
    [create_epub] is never entered. *)
Theorem absent_parts_field_is_rejected :
  handler two_volumes_generation (post [("jnovelclub_url", series_url)])
    (world_of earlier_request)
  = (Raise (BadRequestKeyError "prepub_parts"),
     logged (world_of earlier_request)
       [Log INFO "Prepub parts requested by client: 10.0.0.7";
        Log DEBUG "Requested JNC URL: https://j-novel.club/series/my-series";
        Log INFO "Requested ALL"]).
Proof. apply absent_parts_raises; reflexivity. Qed.

(** The working directory of an earlier request of the same caller is
    there before the request and gone after it. *)
Lemma cleanup_removes_caller_directory_witness :
  FS.lookup ["srv"; "out"; "10.0.0.7"; "2023-12-31_23-59_000001"] earlier_request
  = Some (Dir [("Old_Volume_1.epub", File 1600000000 vol1)]) /\
  FS.lookup ["srv"; "out"; "10.0.0.7"; "2023-12-31_23-59_000001"]
    (fs (snd (handler two_volumes_generation
                (post [("jnovelclub_url", series_url); ("prepub_parts", "")])
                (world_of earlier_request))))
  = None.
Proof.
  split; [reflexivity|].
  refine (proj2 (cleanup_removes_caller_directory
                   (zip := Stored.library) (gen := two_volumes_generation) proc
                   (post [("jnovelclub_url", series_url); ("prepub_parts", "")])
                   (world_of earlier_request) series_response _ "/srv/out" _ _)
            earlier_time []).
  - reflexivity.
  - vm_compute. reflexivity.
Defined.

(** * Further properties of [create_epub] *)

Section Timestamps.

Lemma append_inj_length a a' b b' :
  String.length a = String.length a' ->
  a +:+ b = a' +:+ b' -> a = a' /\ b = b'.
Proof.
  revert a'; induction a as [|x a IH]; intros [|x' a']; simpl; try discriminate.
  - now intros _ ->.
  - intros [= Hlen] [= -> Heq]. destruct (IH _ Hlen Heq) as [-> ->]. now split.
Qed.

Lemma append_inj_l a x y : a +:+ x = a +:+ y -> x = y.
Proof. induction a as [|c a IH]; simpl; [trivial | intros [= H]; auto]. Qed.

Lemma digit_inj d d' :
  d < 10 -> d' < 10 -> Datetime.digit d = Datetime.digit d' -> d = d'.
Proof.
  intros Hd Hd'.
  do 10 (destruct d as [|d]; [do 10 (destruct d' as [|d']; [(reflexivity || discriminate)|]); lia|]).
  lia.
Qed.

(** Distinct numbers below [10 ^ w] print differently at width [w]. *)
Lemma zero_pad_inj w n m :
  n < 10 ^ w -> m < 10 ^ w ->
  Datetime.zero_pad w n = Datetime.zero_pad w m -> n = m.
Proof.
  revert n m; induction w as [|w IH]; intros n m Hn Hm.
  - simpl in *. lia.
  - cbn [Datetime.zero_pad]. intros Heq.
    apply append_inj_length in Heq as [Hhigh [= Hlow]];
      [|now rewrite !zero_pad_length].
    change (Datetime.digit (n mod 10) = Datetime.digit (m mod 10)) in Hlow.
    rewrite Nat.pow_succ_r' in Hn, Hm.
    apply IH in Hhigh; try (apply Nat.Div0.div_lt_upper_bound; lia).
    apply digit_inj in Hlow; try (apply Nat.mod_upper_bound; lia).
    rewrite (Nat.div_mod_eq n 10), (Nat.div_mod_eq m 10). lia.
Qed.

Lemma strftime_same_but_seconds dt1 dt2 :
  same_but_seconds dt1 dt2 -> Datetime.strftime dt1 = Datetime.strftime dt2.
Proof.
  intros (Hy & Hmo & Hd & Hh & Hmi & Hus). unfold Datetime.strftime.
  now rewrite Hy, Hmo, Hd, Hh, Hmi, Hus.
Qed.

Lemma strftime_inj dt1 dt2 :
  datetime_in_range dt1 -> datetime_in_range dt2 ->
  Datetime.strftime dt1 = Datetime.strftime dt2 -> same_but_seconds dt1 dt2.
Proof.
  intros (Hy1 & Hmo1 & Hd1 & Hh1 & Hmi1 & _ & Hus1) (Hy2 & Hmo2 & Hd2 & Hh2 & Hmi2 & _ & Hus2).
  unfold Datetime.strftime. intros H.
  apply append_inj_length in H as [Hy H]; [|now rewrite !zero_pad_length].
  apply append_inj_l in H.
  apply append_inj_length in H as [Hmo H]; [|now rewrite !zero_pad_length].
  apply append_inj_l in H.
  apply append_inj_length in H as [Hd H]; [|now rewrite !zero_pad_length].
  apply append_inj_l in H.
  apply append_inj_length in H as [Hh H]; [|now rewrite !zero_pad_length].
  apply append_inj_l in H.
  apply append_inj_length in H as [Hmi H]; [|now rewrite !zero_pad_length].
  apply append_inj_l in H.
  assert (Hpow4 : Z.of_nat (10 ^ 4) = 10000%Z) by (rewrite Nat2Z.inj_pow; reflexivity).
  assert (Hpow2 : Z.of_nat (10 ^ 2) = 100%Z) by (rewrite Nat2Z.inj_pow; reflexivity).
  assert (Hpow6 : Z.of_nat (10 ^ 6) = 1000000%Z) by (rewrite Nat2Z.inj_pow; reflexivity).
  repeat split; eapply zero_pad_inj; try eassumption; lia.
Qed.

(** X1: the working directory of a request does not depend on the
    seconds of its time, and on the value ranges of [datetime] it
    depends on every other field: two requests of one caller address get
    the same working directory exactly when their times agree on year,
    month, day, hour, minute and microsecond. *)
Theorem working_directory_collision out req dt1 dt2 :
  datetime_in_range dt1 -> datetime_in_range dt2 ->
  (working_directory out req dt1 = working_directory out req dt2
   <-> same_but_seconds dt1 dt2).
Proof.
  intros Hr1 Hr2. unfold working_directory. split.
  - intros H. do 4 apply append_inj_l in H. now apply strftime_inj.
  - intros H. now rewrite (strftime_same_but_seconds _ _ H).
Qed.

End Timestamps.

Section WorkingDirectory.

Context {zip : ZipLibrary} {gen : GenerationLibrary} (proc : process).

Implicit Types (p q : list string) (n : node) (es : list (string * node)).

Lemma entry_alter_same c es x :
  FS.entry_lookup c es = Some x -> FS.entry_alter (fun _ => x) c es = es.
Proof.
  induction es as [|[k y] es IH]; simpl; [discriminate|].
  destruct (String.eqb k c); [now intros [= ->] | intros H; now rewrite IH].
Qed.

Lemma entry_lookup_alter_ne f c c' es :
  c <> c' -> FS.entry_lookup c' (FS.entry_alter f c es) = FS.entry_lookup c' es.
Proof.
  intros Hne. induction es as [|[k y] es IH]; simpl; [reflexivity|].
  destruct (String.eqb_spec k c) as [->|_]; simpl.
  - now destruct (String.eqb_spec c c').
  - now rewrite IH.
Qed.

Lemma entry_lookup_app c es es' :
  FS.entry_lookup c (es ++ es') =
  match FS.entry_lookup c es with
  | Some x => Some x
  | None => FS.entry_lookup c es'
  end.
Proof.
  induction es as [|[k y] es IH]; simpl; [reflexivity|].
  now destruct (String.eqb k c).
Qed.

Lemma makedirs_errors p n e :
  FS.makedirs p n = inl e -> e = FileExistsError \/ e = NotADirectoryError.
Proof.
  revert n; induction p as [|c p IH]; intros [t d|es]; simpl.
  - intros [= <-]. now left.
  - discriminate.
  - intros [= <-]. now right.
  - destruct (FS.entry_lookup c es) as [child|].
    + destruct (FS.makedirs p child) eqn:E; [intros [= <-]; eauto | discriminate].
    + destruct (FS.makedirs p (Dir [])) eqn:E; [intros [= <-]; eauto | discriminate].
Qed.

(** [exist_ok]: making a directory that is there changes nothing. *)
Lemma makedirs_existing p n es :
  FS.lookup p n = Some (Dir es) -> FS.makedirs p n = inr n.
Proof.
  revert n; induction p as [|c p IH]; intros [t d|es0]; simpl; try discriminate.
  - reflexivity.
  - destruct (FS.entry_lookup c es0) as [child|] eqn:E; [|discriminate].
    intros H. rewrite (IH _ H). now rewrite entry_alter_same.
Qed.

Lemma makedirs_creates p n n' :
  FS.makedirs p n = inr n' -> exists es, FS.lookup p n' = Some (Dir es).
Proof.
  revert n n'; induction p as [|c p IH]; intros [t d|es] n'; simpl; try discriminate.
  - intros [= <-]. eauto.
  - destruct (FS.entry_lookup c es) as [child|] eqn:E.
    + destruct (FS.makedirs p child) as [|child'] eqn:Ec; [discriminate|].
      intros [= <-]. cbn [FS.lookup]. rewrite entry_lookup_alter, E. simpl. eauto.
    + destruct (FS.makedirs p (Dir [])) as [|child'] eqn:Ec; [discriminate|].
      intros [= <-]. cbn [FS.lookup]. rewrite entry_lookup_app, E. simpl.
      rewrite String.eqb_refl. eauto.
Qed.

Lemma makedirs_keeps_files p n n' q t d :
  FS.makedirs p n = inr n' ->
  FS.lookup q n = Some (File t d) -> FS.lookup q n' = Some (File t d).
Proof.
  revert n n' q; induction p as [|c p IH]; intros [t0 d0|es] n' q; simpl; try discriminate.
  - now intros [= <-].
  - destruct (FS.entry_lookup c es) as [child|] eqn:E.
    + destruct (FS.makedirs p child) as [|child'] eqn:Ec; [discriminate|].
      intros [= <-]. destruct q as [|c' q]; [discriminate|]. cbn [FS.lookup].
      destruct (String.eqb_spec c c') as [<-|Hne].
      * rewrite entry_lookup_alter, E. simpl. now apply IH.
      * now rewrite entry_lookup_alter_ne.
    + destruct (FS.makedirs p (Dir [])) as [|child'] eqn:Ec; [discriminate|].
      intros [= <-]. destruct q as [|c' q]; [discriminate|]. cbn [FS.lookup].
      rewrite entry_lookup_app. now destruct (FS.entry_lookup c' es).
Qed.

(** X2: a complete request in a process without [JNCEP_OUTPUT] fails in
    [create_epub] with [KeyError], before a directory is made or
    generation is called: the file system is as it was. *)
Theorem missing_output_root_is_an_error req w url part :
  form req !! "jnovelclub_url" = Some url ->
  form req !! "prepub_parts" = Some part ->
  environ proc !! "JNCEP_OUTPUT" = None ->
  index proc req w
  = (Raise (KeyError "JNCEP_OUTPUT"),
     logged w (request_log req url part ++ [Enter_create_epub url part])).
Proof.
  intros Hurl Hpart Hout.
  unfold index, bind, logger, emit, form_getitem, getitem, form_get_truthy.
  cbn [fs now trace]. rewrite Hurl, Hpart. cbn [ret fs now trace].
  unfold create_epub, bind, emit, datetime_now, getitem.
  destruct part as [|c part]; cbn [ret raise fs now trace]; rewrite Hout;
    unfold logged, request_log; cbn [raise]; now rewrite <- !app_assoc.
Qed.

(** X3: when the working directory cannot be made because a regular file
    is in the way, [create_epub] raises [FileExistsError] or
    [NotADirectoryError]; generation is not called and the file system is
    as it was. *)
Theorem blocked_working_directory_is_an_error req url part w out e :
  environ proc !! "JNCEP_OUTPUT" = Some out ->
  FS.makedirs
    (resolve proc (PurePath.of_string (working_directory out req (now w))))
    (fs w) = inl e ->
  create_epub proc req url part w
  = (Raise e, logged w [Enter_create_epub url part]) /\
  (e = FileExistsError \/ e = NotADirectoryError).
Proof.
  intros Hout Hmk. split; [|now apply makedirs_errors in Hmk].
  unfold create_epub, Path_mkdir, bind, emit, datetime_now, getitem, get_fs.
  cbn [fs now trace]. rewrite Hout. cbn [ret fs now trace].
  fold (working_directory out req (now w)). now rewrite Hmk.
Qed.

(** X4: when the working directory of the request already exists (an
    earlier request of the same caller address collided with it),
    [create_epub] neither fails nor empties it: generation is called on
    the unchanged file system, with the files of the earlier request
    still in the directory. *)
Theorem existing_working_directory_is_reused req url part w out es :
  environ proc !! "JNCEP_OUTPUT" = Some out ->
  FS.lookup
    (resolve proc (PurePath.of_string (working_directory out req (now w))))
    (fs w) = Some (Dir es) ->
  create_epub proc req url part w
  = generation_outcome proc req url part out w (fs w).
Proof.
  intros Hout Hdir.
  apply (create_epub_run proc req url part w out (fs w) Hout).
  now apply makedirs_existing with es.
Qed.

(** X5: when the working directory can be made, the file system that
    [create_epub] hands to the generation library holds the working
    directory, and every regular file that was there before is still
    there with the same time and bytes. *)
Theorem working_directory_is_made req url part w out root1 :
  environ proc !! "JNCEP_OUTPUT" = Some out ->
  FS.makedirs
    (resolve proc (PurePath.of_string (working_directory out req (now w))))
    (fs w) = inr root1 ->
  create_epub proc req url part w
  = generation_outcome proc req url part out w root1 /\
  (exists es,
     FS.lookup
       (resolve proc (PurePath.of_string (working_directory out req (now w))))
       root1 = Some (Dir es)) /\
  (forall q t d,
     FS.lookup q (fs w) = Some (File t d) -> FS.lookup q root1 = Some (File t d)).
Proof.
  intros Hout Hmk. split; [|split].
  - now apply (create_epub_run proc req url part w out root1 Hout).
  - now apply makedirs_creates in Hmk.
  - intros q t d. now apply makedirs_keeps_files with (1 := Hmk).
Qed.

End WorkingDirectory.

(** * Further properties of the packager *)

Section PackagerFurther.

Context {zip : ZipLibrary} (proc : process).

Implicit Types (w : world) (es : list (string * node)).

(** A generated name resolves to the same entry among all entries and
    among the generated ones. *)
Lemma entry_lookup_epub es n :
  Str.endswith ".epub" n = true ->
  FS.entry_lookup n es = FS.entry_lookup n (epub_entries es).
Proof.
  intros Hn. unfold epub_entries.
  induction es as [|[k x] es IH]; cbn [FS.entry_lookup List.filter fst]; [reflexivity|].
  destruct (String.eqb_spec k n) as [->|Hne].
  - rewrite Hn. cbn [FS.entry_lookup]. now rewrite String.eqb_refl.
  - destruct (Str.endswith ".epub" k); [|exact IH].
    cbn [FS.entry_lookup]. now destruct (String.eqb_spec k n).
Qed.

Lemma member_of_epub es n :
  Str.endswith ".epub" n = true ->
  member_of es n = member_of (epub_entries es) n.
Proof. intros Hn. unfold member_of. now rewrite (entry_lookup_epub es n Hn). Qed.

Lemma members_of_epub es :
  List.map (member_of es) (List.map fst (epub_entries es))
  = List.map (member_of (epub_entries es)) (List.map fst (epub_entries es)).
Proof.
  apply map_ext_in. intros n Hin. apply member_of_epub.
  apply in_map_iff in Hin as [e [<- He]]. now apply epub_entries_endswith with es.
Qed.

Lemma endswith_append suf a : Str.endswith suf (a +:+ suf) = true.
Proof.
  induction a as [|x a IH]; cbn [String.append Str.endswith].
  - destruct suf; cbn [Str.endswith]; now rewrite String.eqb_refl.
  - now destruct (String.eqb (String x (a +:+ suf)) suf).
Qed.

(** What a run of the packager appends to the trace. *)
Lemma packager_events directory w :
  exists evs,
    snd (make_one_bytesio_file proc directory w) = logged w evs /\
    forallb is_packager_event evs = true.
Proof.
  destruct (FS.lookup (resolve proc (PurePath.of_string directory)) (fs w))
    as [[t d|es]|] eqn:Hd.
  - rewrite packager_empty; [now eexists | unfold epub_names; now rewrite Hd].
  - destruct (decide (length (epub_entries es) = 1)) as [Hone|Hmany].
    + destruct (epub_entries es) as [|[n x] [|? ?]] eqn:He; try discriminate.
      rewrite (packager_single _ _ _ es n Hd); [now eexists | now rewrite He].
    + rewrite (packager_archive _ _ _ es Hd Hmany). cbv zeta.
      destruct (List.map fst (epub_entries es)); [now eexists|].
      destruct (Str.find volume_token _); now eexists.
  - rewrite packager_empty; [now eexists | unfold epub_names; now rewrite Hd].
Qed.

(** X6: the outcome of the packager depends on the [*.epub] entries of
    the directory only: entries with other names, whatever they are and
    wherever they are enumerated, change neither the payload nor the
    name nor the error. *)
Theorem other_entries_are_ignored directory w1 w2 es1 es2 :
  FS.lookup (resolve proc (PurePath.of_string directory)) (fs w1) = Some (Dir es1) ->
  FS.lookup (resolve proc (PurePath.of_string directory)) (fs w2) = Some (Dir es2) ->
  epub_entries es1 = epub_entries es2 ->
  fst (make_one_bytesio_file proc directory w1)
  = fst (make_one_bytesio_file proc directory w2).
Proof.
  intros Hd1 Hd2 Hsame.
  destruct (decide (length (epub_entries es1) = 1)) as [Hone|Hmany].
  - destruct (epub_entries es1) as [|[n x] [|? ?]] eqn:He; try discriminate.
    rewrite (packager_single _ _ w1 es1 n Hd1) by now rewrite He.
    rewrite (packager_single _ _ w2 es2 n Hd2) by now rewrite <- Hsame.
    rewrite (entry_lookup_only es1 n x He).
    now rewrite (entry_lookup_only es2 n x (eq_sym Hsame)).
  - rewrite (packager_archive _ _ w1 es1 Hd1 Hmany).
    rewrite (packager_archive _ _ w2 es2 Hd2) by now rewrite <- Hsame.
    cbv zeta. rewrite (members_of_epub es1), (members_of_epub es2), <- Hsame.
    destruct (List.map fst (epub_entries es1)); [reflexivity|].
    now destruct (Str.find volume_token _).
Qed.

(** X7: whenever the packager returns, the buffer is positioned at its
    start, so that a reader gets all of it, and the download name ends
    in [.epub] when one file was found and in [.zip] otherwise. *)
Theorem returned_payload_is_rewound directory w payload name w' :
  make_one_bytesio_file proc directory w = (Return (payload, name), w') ->
  tell payload = 0 /\
  BytesIO_read payload = getvalue payload /\
  Str.endswith
    (if (length (epub_names proc (PurePath.of_string directory) (fs w)) =? 1)%nat
     then ".epub" else ".zip") name = true.
Proof.
  unfold epub_names.
  destruct (FS.lookup (resolve proc (PurePath.of_string directory)) (fs w))
    as [[t d|es]|] eqn:Hd.
  - rewrite packager_empty; [discriminate | unfold epub_names; now rewrite Hd].
  - rewrite List.length_map.
    destruct (Nat.eqb_spec (length (epub_entries es)) 1) as [Hone|Hmany].
    + destruct (epub_entries es) as [|[n x] [|? ?]] eqn:He; try discriminate.
      rewrite (packager_single _ _ _ es n Hd) by now rewrite He.
      destruct (FS.entry_lookup n es) as [[]|]; try discriminate.
      intros [= <- <- _]. repeat split.
      apply (epub_entries_endswith es (n, x)). rewrite He. now left.
    + rewrite (packager_archive _ _ _ es Hd Hmany). cbv zeta.
      destruct (List.map fst (epub_entries es)) as [|n0 names]; [discriminate|].
      destruct (Str.find volume_token _) as [i|]; [|discriminate].
      intros [= <- <- _]. repeat split. apply endswith_append.
  - rewrite packager_empty; [discriminate | unfold epub_names; now rewrite Hd].
Qed.

(** X8: when the only [*.epub] entry of the directory is itself a
    directory, the packager takes the single-file branch and fails on
    opening it, with [IsADirectoryError]. *)
Theorem single_directory_entry_is_an_error directory w es n sub :
  FS.lookup (resolve proc (PurePath.of_string directory)) (fs w) = Some (Dir es) ->
  epub_entries es = [(n, Dir sub)] ->
  make_one_bytesio_file proc directory w
  = (Raise IsADirectoryError, logged w [entering directory]).
Proof.
  intros Hd He.
  rewrite (packager_single _ _ _ es n Hd) by now rewrite He.
  now rewrite (entry_lookup_only _ _ _ He).
Qed.

(** X9: the packager only reads: whatever it returns or raises, it leaves
    the file system and the clock as they were, and all it appends to
    the trace is its entry and at most its own log line; in particular
    it removes nothing and calls no generation. *)
Theorem packager_only_reads directory w :
  fs (snd (make_one_bytesio_file proc directory w)) = fs w /\
  now (snd (make_one_bytesio_file proc directory w)) = now w /\
  exists evs,
    trace (snd (make_one_bytesio_file proc directory w)) = trace w ++ evs /\
    length evs <= 2 /\
    forallb is_packager_event evs = true /\
    existsb is_rmtree evs = false /\
    existsb is_generation evs = false.
Proof.
  destruct (FS.lookup (resolve proc (PurePath.of_string directory)) (fs w))
    as [[t d|es]|] eqn:Hd.
  - rewrite packager_empty by (unfold epub_names; now rewrite Hd).
    repeat split. eexists. repeat split. simpl. lia.
  - destruct (decide (length (epub_entries es) = 1)) as [Hone|Hmany].
    + destruct (epub_entries es) as [|[n x] [|? ?]] eqn:He; try discriminate.
      rewrite (packager_single _ _ _ es n Hd) by now rewrite He.
      repeat split. eexists. repeat split. simpl. lia.
    + rewrite (packager_archive _ _ _ es Hd Hmany). cbv zeta.
      destruct (List.map fst (epub_entries es)) as [|n0 names];
        [|destruct (Str.find volume_token _)];
        (repeat split; eexists; repeat split; simpl; lia).
  - rewrite packager_empty by (unfold epub_names; now rewrite Hd).
    repeat split. eexists. repeat split. simpl. lia.
Qed.

End PackagerFurther.

(** * Further properties of the request handler *)

Section Appends.

Context {A B : Type} (P : event -> Prop).

Lemma appends_quiet (m : M A) w :
  trace (snd (m w)) = trace w -> now (snd (m w)) = now w -> appends P m w.
Proof. intros Ht Hn. exists []. rewrite app_nil_r. now repeat split. Qed.

Lemma appends_emit e w : P e -> appends P (emit e) w.
Proof. intros He. exists [e]. repeat split. now constructor. Qed.

Lemma appends_bind (m : M A) (k : A -> M B) w :
  appends P m w ->
  (forall a w', m w = (Return a, w') -> now w' = now w -> appends P (k a) w') ->
  appends P (bind m k) w.
Proof.
  intros (evs & Ht & Hn & Hevs) Hk. unfold appends, bind.
  destruct (m w) as [[a|e] w1] eqn:Hm; cbn [snd] in *.
  - destruct (Hk a w1 eq_refl Hn) as (evs' & Ht' & Hn' & Hevs').
    exists (evs ++ evs'). rewrite Ht', Ht, Hn', Hn, app_assoc.
    repeat split. now apply Forall_app.
  - now exists evs.
Qed.

End Appends.

Section HandlerEvents.

Context {zip : ZipLibrary} {gen : GenerationLibrary} (proc : process).

Implicit Types (req : request) (w : world) (P : event -> Prop).

Lemma getitem_appends P e k (dict : gmap string string) w :
  appends P (getitem e k dict) w.
Proof. apply appends_quiet; unfold getitem; now destruct (dict !! k). Qed.

Lemma Path_mkdir_appends P p w : appends P (Path_mkdir proc p) w.
Proof.
  apply appends_quiet; unfold Path_mkdir, bind, get_fs, put_fs;
    now destruct (FS.makedirs _ _).
Qed.

Lemma generate_epub_appends P c w :
  P (Call_generate_epub c) -> appends P (generate_epub c) w.
Proof.
  intros Hc. exists [Call_generate_epub c].
  unfold generate_epub, bind, emit, get_fs, put_fs. cbn [fs now trace].
  destruct (generate_epub_callback c (fs w)) as [[e|] root']; cbn;
    repeat split; now constructor.
Qed.

Lemma shutil_rmtree_appends P p w :
  P (Call_rmtree p) -> appends P (shutil_rmtree proc p) w.
Proof.
  intros Hp. exists [Call_rmtree p]. repeat split. now constructor.
Qed.

Lemma packager_appends P directory w :
  (forall e, is_packager_event e = true -> P e) ->
  appends P (make_one_bytesio_file proc directory) w.
Proof.
  intros HP. destruct (packager_events proc directory w) as (evs & Hsnd & Hevs).
  exists evs. rewrite Hsnd. repeat split. apply Forall_forall. intros e He. apply HP.
  rewrite forallb_forall in Hevs. now apply Hevs.
Qed.

Lemma parent_of_working_directory out req dt :
  PurePath.parent (PurePath.of_string (working_directory out req dt))
  = PurePath.of_string (caller_directory out req).
Proof. now rewrite working_directory_path, parent_joinpath. Qed.

Lemma create_epub_appends req url part w :
  form req !! "jnovelclub_url" = Some url ->
  form req !! "prepub_parts" = Some part ->
  appends (handler_event proc req (now w)) (create_epub proc req url part) w.
Proof.
  intros Hurl Hpart. unfold create_epub.
  apply appends_bind; [now apply appends_emit|]. intros _ w1 _ Hn1.
  apply appends_bind; [now apply appends_quiet|]. intros dt w2 [= <- <-] _.
  apply appends_bind; [apply getitem_appends|].
  intros out w3 [Hout ->]%getitem_Return _.
  apply appends_bind; [apply Path_mkdir_appends|]. intros _ w4 _ Hn4.
  apply appends_bind; [now apply appends_emit|]. intros _ w5 _ Hn5.
  apply appends_bind.
  { apply generate_epub_appends. exists url, part, out.
    rewrite Hn1. now repeat split. }
  intros _ w6 _ Hn6.
  apply appends_bind; [now apply appends_emit|]. intros _ w7 _ Hn7.
  now apply appends_quiet.
Qed.

(** Every event of a request is one that [handler_event] allows. *)
Lemma index_appends req w :
  appends (handler_event proc req (now w)) (index proc req) w.
Proof.
  unfold index.
  apply appends_bind; [now apply appends_emit|]. intros _ w1 _ Hn1.
  apply appends_bind; [apply getitem_appends|].
  intros url w2 [Hurl ->]%getitem_Return _.
  apply appends_bind; [now apply appends_emit|]. intros _ w3 _ Hn3.
  apply appends_bind.
  { destruct (form_get_truthy req "prepub_parts"); [|now apply appends_emit].
    apply appends_bind; [apply getitem_appends|]. intros; now apply appends_emit. }
  intros _ w4 _ Hn4.
  apply appends_bind; [apply getitem_appends|].
  intros url' w5 [Hurl' ->]%getitem_Return _.
  apply appends_bind; [apply getitem_appends|].
  intros part w6 [Hpart ->]%getitem_Return _.
  assert (Hnow : now w4 = now w) by now rewrite Hn4, Hn3, Hn1.
  rewrite <- Hnow.
  apply appends_bind; [now apply create_epub_appends|].
  intros epub_path w7 Hcreate Hn7.
  apply create_epub_Return in Hcreate as (out & cevs & Hout & -> & _ & _).
  apply appends_bind; [now apply packager_appends; intros [] |].
  intros [file_object name] w8 _ Hn8.
  apply appends_bind; [now apply appends_emit|]. intros _ w9 _ Hn9.
  apply appends_bind.
  { apply shutil_rmtree_appends. exists out.
    now rewrite parent_of_working_directory. }
  intros _ w10 _ Hn10.
  apply appends_bind; [now apply appends_emit|]. intros _ w11 _ Hn11.
  unfold send_file.
  apply appends_bind; [now apply appends_emit|]. intros _ w12 _ Hn12.
  now apply appends_quiet.
Qed.

End HandlerEvents.

Section HandlerFurther.

Context {zip : ZipLibrary} {gen : GenerationLibrary} (proc : process).

Implicit Types (req : request) (w : world).

(** X10: in every run of the handler, whatever its outcome, each call
    into the generation library carries the two form fields exactly as
    submitted, the working directory of this request as output
    directory, and the credentials and options of the process. *)
Theorem generation_calls_carry_the_request req w :
  exists evs,
    trace (snd (index proc req w)) = trace w ++ evs /\
    forall c, In (Call_generate_epub c) evs ->
      exists url part out,
        form req !! "jnovelclub_url" = Some url /\
        form req !! "prepub_parts" = Some part /\
        environ proc !! "JNCEP_OUTPUT" = Some out /\
        c = generation_call proc url part (working_directory out req (now w)).
Proof.
  destruct (index_appends proc req w) as (evs & Ht & _ & Hevs).
  exists evs. split; [exact Ht|]. intros c Hc.
  rewrite Forall_forall in Hevs. exact (Hevs _ Hc).
Qed.

(** X11: in every run of the handler, whatever its outcome, each call of
    [rmtree] is on the directory of the caller address below the output
    root; the handler removes nothing else. *)
Theorem only_the_caller_directory_is_removed req w :
  exists evs,
    trace (snd (index proc req w)) = trace w ++ evs /\
    forall p, In (Call_rmtree p) evs ->
      exists out,
        environ proc !! "JNCEP_OUTPUT" = Some out /\
        p = PurePath.of_string (caller_directory out req).
Proof.
  destruct (index_appends proc req w) as (evs & Ht & _ & Hevs).
  exists evs. split; [exact Ht|]. intros p Hp.
  rewrite Forall_forall in Hevs. exact (Hevs _ Hp).
Qed.

(** X12: in a process whose option dictionary is the one the entry point
    builds from the environment, no request can change the options: each
    generation call of each run has the credentials of the environment,
    groups by volume, and has the other four options switched off. *)
Theorem options_are_fixed_at_startup req w :
  main_args (environ proc) = inr (args proc) ->
  exists evs,
    trace (snd (index proc req w)) = trace w ++ evs /\
    forall c, In (Call_generate_epub c) evs ->
      environ proc !! "JNCEP_EMAIL" = Some (gen_email c) /\
      environ proc !! "JNCEP_PASSWORD" = Some (gen_password c) /\
      gen_is_by_volume c = true /\
      gen_is_extract_images c = false /\
      gen_is_extract_content c = false /\
      gen_is_not_replace_chars c = false /\
      gen_style_css_path c = false.
Proof.
  intros Hmain.
  destruct (index_appends proc req w) as (evs & Ht & _ & Hevs).
  exists evs. split; [exact Ht|]. intros c Hc.
  rewrite Forall_forall in Hevs.
  destruct (Hevs _ Hc) as (url & part & out & _ & _ & _ & ->).
  unfold main_args in Hmain.
  destruct (environ proc !! "JNCEP_EMAIL") as [e|]; [|discriminate].
  destruct (environ proc !! "JNCEP_PASSWORD") as [pw|]; [|discriminate].
  injection Hmain as Hargs. unfold generation_call. simpl.
  rewrite <- Hargs. now repeat split.
Qed.

Lemma entry_lookup_remove_ne c c' (es : list (string * node)) :
  c <> c' -> FS.entry_lookup c' (FS.entry_remove c es) = FS.entry_lookup c' es.
Proof.
  intros Hne. induction es as [|[k y] es IH]; simpl; [reflexivity|].
  destruct (String.eqb_spec k c) as [->|_]; simpl.
  - now destruct (String.eqb_spec c c').
  - now rewrite IH.
Qed.

(** [rmtree p] leaves alone what is neither below [p] nor above it. *)
Lemma rmtree_frame (p q : list string) (n : node) :
  unrelated p q -> FS.lookup q (FS.rmtree p n) = FS.lookup q n.
Proof.
  revert q n; induction p as [|c p IH]; intros q n [Hpq Hqp].
  - exfalso. apply Hpq, prefix_nil.
  - destruct q as [|c' q]; [exfalso; apply Hqp, prefix_nil|].
    destruct n as [t d|es]; [now destruct p|].
    destruct p as [|c2 p].
    + assert (Hne : c <> c').
      { intros ->. apply Hpq. now exists q. }
      cbn [FS.rmtree]. destruct (FS.entry_lookup c es) as [[|sub]|]; try reflexivity.
      cbn [FS.lookup]. now rewrite entry_lookup_remove_ne.
    + change (FS.rmtree (c :: c2 :: p) (Dir es))
        with (Dir (FS.entry_alter (FS.rmtree (c2 :: p)) c es)).
      cbn [FS.lookup]. destruct (String.eqb_spec c c') as [<-|Hne].
      * rewrite entry_lookup_alter.
        destruct (FS.entry_lookup c es) as [child|]; [|reflexivity].
        simpl. apply IH. split; intros H; [apply Hpq | apply Hqp]; now apply prefix_cons.
      * now rewrite entry_lookup_alter_ne.
Qed.

(** The handler once generation has returned: it continues with the
    packager, and finishes according to the packager's outcome. *)
Lemma index_after_generation req w url part out root1 root2 :
  form req !! "jnovelclub_url" = Some url ->
  form req !! "prepub_parts" = Some part ->
  environ proc !! "JNCEP_OUTPUT" = Some out ->
  FS.makedirs
    (resolve proc (PurePath.of_string (working_directory out req (now w))))
    (fs w) = inr root1 ->
  generate_epub_callback
    (generation_call proc url part (working_directory out req (now w))) root1
  = (None, root2) ->
  index proc req w
  = match
      make_one_bytesio_file proc (working_directory out req (now w))
        {| fs := root2; now := now w;
           trace := trace w ++ request_log req url part ++
                    creation_log proc url part (working_directory out req (now w)) |}
    with
    | (Return (payload, name), w7) =>
        (Return {| body := payload; download_name := name; as_attachment := true |},
         {| fs := FS.rmtree
                    (resolve proc (PurePath.of_string (caller_directory out req)))
                    (fs w7);
            now := now w7;
            trace := trace w7 ++
                     delivery_log (PurePath.of_string (caller_directory out req)) name |})
    | (Raise e, w7) => (Raise e, w7)
    end.
Proof.
  intros Hurl Hpart Hout Hmk Hgen.
  assert (Hcreate : forall w0, fs w0 = fs w -> now w0 = now w ->
            create_epub proc req url part w0
            = (Return (working_directory out req (now w)),
               {| fs := root2; now := now w;
                  trace := trace w0 ++
                    creation_log proc url part (working_directory out req (now w)) |})).
  { intros w0 Hfs Hnow.
    rewrite (create_epub_run proc req url part w0 out root1 Hout)
      by now rewrite Hfs, Hnow.
    rewrite Hnow, Hgen. reflexivity. }
  unfold index.
  unfold bind at 1, logger at 1, emit at 1.
  unfold bind at 1, form_getitem at 1, getitem at 1. rewrite Hurl. cbn [ret].
  unfold bind at 1, logger at 1, emit at 1. cbn [fs now trace].
  unfold bind at 1.
  assert (Hlog : forall w0,
            (if form_get_truthy req "prepub_parts"
             then bind (form_getitem req "prepub_parts")
                    (fun requested => logger INFO ("Requested parts: " +:+ requested))
             else logger INFO "Requested ALL") w0
            = (Return tt,
               logged w0 [match part with
                          | String _ _ => Log INFO ("Requested parts: " +:+ part)
                          | EmptyString => Log INFO "Requested ALL"
                          end])).
  { intros w0. unfold form_get_truthy, form_getitem, getitem, bind, logger, emit.
    rewrite Hpart. now destruct part. }
  rewrite Hlog.
  unfold bind at 1, form_getitem at 1, getitem at 1. rewrite Hurl. cbn [ret].
  unfold bind at 1, form_getitem at 1, getitem at 1. rewrite Hpart. cbn [ret].
  unfold bind at 1. rewrite Hcreate by reflexivity.
  unfold logged. cbn [fs now trace]. rewrite <- !app_assoc. cbn [app].
  unfold bind at 1.
  change (trace w ++ request_log req url part ++
          creation_log proc url part (working_directory out req (now w)))
    with (trace w ++
          Log INFO ("Prepub parts requested by client: " +:+ remote_addr req)
          :: Log DEBUG ("Requested JNC URL: " +:+ url)
          :: match part with
             | String _ _ => Log INFO ("Requested parts: " +:+ part)
             | EmptyString => Log INFO "Requested ALL"
             end
          :: creation_log proc url part (working_directory out req (now w))).
  destruct (make_one_bytesio_file proc (working_directory out req (now w)) _)
    as [[[payload name]|e] w7]; [|reflexivity].
  rewrite parent_of_working_directory.
  unfold bind, logger, shutil_rmtree, send_file, emit, get_fs, put_fs, bind, emit.
  cbn [fs now trace ret]. unfold delivery_log. now rewrite <- !app_assoc.
Qed.

End HandlerFurther.

Section HandlerOutcomes.

Context {zip : ZipLibrary} {gen : GenerationLibrary} (proc : process).

Implicit Types (req : request) (w wp : world).

(** The packager's run in the handler, from its outcome on any world
    with the same file system. *)
Lemma packager_run_on req w url part out root2 wp :
  fs wp = root2 ->
  let w6 := {| fs := root2; now := now w;
               trace := trace w ++ request_log req url part ++
                        creation_log proc url part (working_directory out req (now w)) |} in
  exists pevs,
    make_one_bytesio_file proc (working_directory out req (now w)) w6
    = (fst (make_one_bytesio_file proc (working_directory out req (now w)) wp),
       logged w6 pevs) /\
    forallb is_packager_event pevs = true.
Proof.
  intros Hfs w6.
  destruct (packager_events proc (working_directory out req (now w)) w6)
    as (pevs & Hsnd & Hpevs).
  exists pevs. split; [|exact Hpevs].
  rewrite <- Hsnd.
  rewrite <- (packager_outcome_of_directory proc _ w6 wp) by now rewrite Hfs.
  now destruct (make_one_bytesio_file proc _ w6).
Qed.

(** X13: the success path of the handler.  When both form fields are
    present, the working directory can be made, generation returns and
    the packager returns a payload and a name for what generation left,
    the handler answers with exactly that payload under that name, as an
    attachment; the events of the run are, in this order: the request
    log, [create_epub] with the generation call, the packager, the
    [rmtree] of the caller's directory, and [send_file]; and the file
    system at the end is the one generation left without the caller's
    directory. *)
Theorem request_is_served req w url part out root1 root2 wp payload name :
  form req !! "jnovelclub_url" = Some url ->
  form req !! "prepub_parts" = Some part ->
  environ proc !! "JNCEP_OUTPUT" = Some out ->
  FS.makedirs
    (resolve proc (PurePath.of_string (working_directory out req (now w))))
    (fs w) = inr root1 ->
  generate_epub_callback
    (generation_call proc url part (working_directory out req (now w))) root1
  = (None, root2) ->
  fs wp = root2 ->
  fst (make_one_bytesio_file proc (working_directory out req (now w)) wp)
  = Return (payload, name) ->
  exists pevs,
    forallb is_packager_event pevs = true /\
    index proc req w
    = (Return {| body := payload; download_name := name; as_attachment := true |},
       {| fs := FS.rmtree
                  (resolve proc (PurePath.of_string (caller_directory out req)))
                  root2;
          now := now w;
          trace := trace w ++ request_log req url part ++
                   creation_log proc url part (working_directory out req (now w)) ++
                   pevs ++
                   delivery_log (PurePath.of_string (caller_directory out req)) name |}).
Proof.
  intros Hurl Hpart Hout Hmk Hgen Hfs Hpack.
  rewrite (index_after_generation proc req w url part out root1 root2) by assumption.
  destruct (packager_run_on req w url part out root2 wp Hfs) as (pevs & -> & Hpevs).
  rewrite Hpack. exists pevs. split; [exact Hpevs|].
  unfold logged. cbn [fs now trace]. now rewrite <- !app_assoc.
Qed.

(** X14: on the success path the cleanup touches the caller's directory
    only.  When the caller's directory and a path [q] are both given by
    entry names (no [..], [.] or empty component, so that looking them
    up is what the operating system does), and [q] is neither inside
    the caller's directory nor one of its ancestors, [q] resolves at
    the end to what generation left there (the directories of other
    caller addresses, for one). *)
Theorem cleanup_leaves_other_paths req w url part out root1 root2 wp payload name q :
  form req !! "jnovelclub_url" = Some url ->
  form req !! "prepub_parts" = Some part ->
  environ proc !! "JNCEP_OUTPUT" = Some out ->
  FS.makedirs
    (resolve proc (PurePath.of_string (working_directory out req (now w))))
    (fs w) = inr root1 ->
  generate_epub_callback
    (generation_call proc url part (working_directory out req (now w))) root1
  = (None, root2) ->
  fs wp = root2 ->
  fst (make_one_bytesio_file proc (working_directory out req (now w)) wp)
  = Return (payload, name) ->
  forallb entry_name
    (resolve proc (PurePath.of_string (caller_directory out req))) = true ->
  forallb entry_name q = true ->
  unrelated (resolve proc (PurePath.of_string (caller_directory out req))) q ->
  FS.lookup q (fs (snd (index proc req w))) = FS.lookup q root2.
Proof.
  intros Hurl Hpart Hout Hmk Hgen Hfs Hpack _ _ Hq.
  rewrite (index_after_generation proc req w url part out root1 root2) by assumption.
  destruct (packager_run_on req w url part out root2 wp Hfs) as (pevs & -> & _).
  rewrite Hpack. cbn [snd fs logged]. now apply rmtree_frame.
Qed.

(** X15: when generation returns and the packager then raises (no
    output, a first name without the token, an unreadable entry), the
    handler raises the packager's error and never reaches the cleanup:
    there is no [rmtree] call, and the file system, working directory
    included, stays as generation left it. *)
Theorem packaging_failure_skips_cleanup req w url part out root1 root2 wp e :
  form req !! "jnovelclub_url" = Some url ->
  form req !! "prepub_parts" = Some part ->
  environ proc !! "JNCEP_OUTPUT" = Some out ->
  FS.makedirs
    (resolve proc (PurePath.of_string (working_directory out req (now w))))
    (fs w) = inr root1 ->
  generate_epub_callback
    (generation_call proc url part (working_directory out req (now w))) root1
  = (None, root2) ->
  fs wp = root2 ->
  fst (make_one_bytesio_file proc (working_directory out req (now w)) wp)
  = Raise e ->
  exists pevs,
    forallb is_packager_event pevs = true /\
    index proc req w
    = (Raise e,
       {| fs := root2;
          now := now w;
          trace := trace w ++ request_log req url part ++
                   creation_log proc url part (working_directory out req (now w)) ++
                   pevs |}) /\
    existsb is_rmtree
      (request_log req url part ++
       creation_log proc url part (working_directory out req (now w)) ++ pevs)
    = false.
Proof.
  intros Hurl Hpart Hout Hmk Hgen Hfs Hpack.
  rewrite (index_after_generation proc req w url part out root1 root2) by assumption.
  destruct (packager_run_on req w url part out root2 wp Hfs) as (pevs & -> & Hpevs).
  rewrite Hpack. exists pevs. split; [exact Hpevs|]. split.
  - unfold logged. cbn [fs now trace]. now rewrite <- !app_assoc.
  - rewrite !existsb_app. replace (existsb is_rmtree pevs) with false.
    + now destruct part.
    + symmetry. apply not_true_iff_false. intros [x [Hin Hx]]%existsb_exists.
      rewrite forallb_forall in Hpevs. specialize (Hpevs x Hin). now destruct x.
Qed.

End HandlerOutcomes.

(** * Further properties of the logging bridge *)

(** X16: [InterceptHandler.emit] passes on the record's message with a
    depth of two plus the number of frames of the [logging] module that
    lie on top of the stack, that is two plus the index of the first
    frame outside [logging]; when every frame is inside [logging] it
    fails with [AttributeError] on the missing [f_back]. *)
Theorem emit_finds_the_caller registered logging_file frames record :
  InterceptHandler.emit registered logging_file frames record
  = match list_find (fun f => f <> logging_file) frames with
    | Some (k, _) =>
        inr (InterceptHandler.level_of registered record, 2 + k, getMessage record)
    | None => inl InterceptHandler.AttributeError
    end.
Proof.
  unfold InterceptHandler.emit.
  assert (Hloop : forall depth,
            InterceptHandler.find_caller logging_file frames depth
            = match list_find (fun f => f <> logging_file) frames with
              | Some (k, _) => inr (depth + k)
              | None => inl InterceptHandler.AttributeError
              end).
  { induction frames as [|f frames IH]; intros depth; [reflexivity|].
    cbn [InterceptHandler.find_caller list_find].
    destruct (String.eqb_spec f logging_file) as [->|Hne].
    - rewrite decide_False by tauto. rewrite IH.
      destruct (list_find _ frames) as [[k x]|]; simpl; [f_equal; lia | reflexivity].
    - rewrite decide_True by assumption. simpl. f_equal. lia. }
  rewrite Hloop. now destruct (list_find _ frames) as [[k x]|].
Qed.

(** * The further properties on concrete requests and directories *)

Lemma working_directory_collision_witness :
  working_directory "/srv/out" Scenario.request_all clock
  = working_directory "/srv/out" Scenario.request_all Scenario.later_second
  <-> same_but_seconds clock Scenario.later_second.
Proof.
  apply working_directory_collision; unfold datetime_in_range; simpl; lia.
Defined.

Lemma missing_output_root_is_an_error_witness :
  index (zip := Stored.library) (gen := two_volumes_generation)
    Scenario.rootless Scenario.request_all (world_of earlier_request)
  = (Raise (KeyError "JNCEP_OUTPUT"),
     logged (world_of earlier_request)
       (request_log Scenario.request_all series_url ""
        ++ [Enter_create_epub series_url ""])).
Proof.
  apply (missing_output_root_is_an_error (zip := Stored.library)
           (gen := two_volumes_generation) Scenario.rootless Scenario.request_all
           (world_of earlier_request) series_url "");
    reflexivity.
Defined.

Lemma blocked_working_directory_is_an_error_witness :
  create_epub (gen := two_volumes_generation) proc Scenario.request_all
    series_url "" (world_of Scenario.blocked)
  = (Raise NotADirectoryError,
     logged (world_of Scenario.blocked) [Enter_create_epub series_url ""]) /\
  (NotADirectoryError = FileExistsError \/ NotADirectoryError = NotADirectoryError).
Proof.
  apply (blocked_working_directory_is_an_error (gen := two_volumes_generation)
           proc Scenario.request_all series_url "" (world_of Scenario.blocked)
           "/srv/out" NotADirectoryError);
    reflexivity.
Defined.

Lemma existing_working_directory_is_reused_witness :
  create_epub (gen := Scenario.silent_generation) proc Scenario.request_all
    series_url "" (world_of Scenario.collided)
  = generation_outcome (gen := Scenario.silent_generation) proc Scenario.request_all
      series_url "" "/srv/out" (world_of Scenario.collided) Scenario.collided.
Proof.
  apply (existing_working_directory_is_reused (gen := Scenario.silent_generation)
           proc Scenario.request_all series_url "" (world_of Scenario.collided)
           "/srv/out"
           [("Other_Volume_1.epub", File 1600000000 vol1)]);
    reflexivity.
Defined.

Lemma working_directory_is_made_witness :
  FS.lookup ["srv"; "out"; "10.0.0.7"; "2023-12-31_23-59_000001"; "Old_Volume_1.epub"]
    (fs (snd (Path_mkdir proc
                (PurePath.of_string "/srv/out/10.0.0.7/2024-01-02_03-04_000006")
                (world_of earlier_request))))
  = Some (File 1600000000 vol1).
Proof.
  refine (proj2 (proj2
            (working_directory_is_made (gen := two_volumes_generation)
               proc Scenario.request_all series_url "" (world_of earlier_request)
               "/srv/out" _ _ _)) _ _ _ _).
  - reflexivity.
  - vm_compute. reflexivity.
  - reflexivity.
Defined.

Lemma other_entries_are_ignored_witness :
  fst (packager "/out" (world_of (out_with Scenario.volumes_and_more)))
  = fst (packager "/out" (world_of (out_with two_volumes_entries))).
Proof.
  apply (other_entries_are_ignored proc "/out"
           (world_of (out_with Scenario.volumes_and_more))
           (world_of (out_with two_volumes_entries))
           Scenario.volumes_and_more two_volumes_entries);
    reflexivity.
Defined.

Lemma returned_payload_is_rewound_witness :
  tell (body series_response) = 0 /\
  BytesIO_read (body series_response) = getvalue (body series_response) /\
  Str.endswith ".zip" "MySeries.zip" = true.
Proof.
  apply (returned_payload_is_rewound (zip := Stored.library) proc Scenario.dirpath
           (world_of (Scenario.generated two_volumes_generation earlier_request))
           (body series_response) "MySeries.zip"
           (logged (world_of (Scenario.generated two_volumes_generation earlier_request))
              [entering Scenario.dirpath; zipping 2])).
  vm_compute. reflexivity.
Defined.

Lemma single_directory_entry_is_an_error_witness :
  packager "/out" (world_of (out_with Scenario.unpacked_entries))
  = (Raise IsADirectoryError,
     logged (world_of (out_with Scenario.unpacked_entries)) [entering "/out"]).
Proof.
  apply (single_directory_entry_is_an_error proc "/out"
           (world_of (out_with Scenario.unpacked_entries))
           Scenario.unpacked_entries "MySeries_Volume_1.epub"
           [("mimetype", File 1700000000 [])]);
    reflexivity.
Defined.

Lemma options_are_fixed_at_startup_witness :
  exists evs,
    trace (snd (index (zip := Stored.library) (gen := two_volumes_generation)
                  Scenario.started Scenario.request_all (world_of earlier_request)))
    = [] ++ evs /\
    forall c, In (Call_generate_epub c) evs ->
      environ Scenario.started !! "JNCEP_EMAIL" = Some (gen_email c) /\
      environ Scenario.started !! "JNCEP_PASSWORD" = Some (gen_password c) /\
      gen_is_by_volume c = true /\
      gen_is_extract_images c = false /\
      gen_is_extract_content c = false /\
      gen_is_not_replace_chars c = false /\
      gen_style_css_path c = false.
Proof.
  apply (options_are_fixed_at_startup (zip := Stored.library)
           (gen := two_volumes_generation) Scenario.started Scenario.request_all
           (world_of earlier_request)).
  reflexivity.
Defined.

Lemma request_is_served_witness :
  exists pevs final,
    forallb is_packager_event pevs = true /\
    handler two_volumes_generation Scenario.request_all (world_of earlier_request)
    = (Return series_response, final) /\
    fs final = Dir [("srv", Dir [("out", Dir [])])].
Proof.
  destruct (request_is_served (zip := Stored.library) (gen := two_volumes_generation)
              proc Scenario.request_all (world_of earlier_request)
              series_url "" "/srv/out"
              (Scenario.after_mkdir earlier_request)
              (Scenario.generated two_volumes_generation earlier_request)
              (world_of (Scenario.generated two_volumes_generation earlier_request))
              (body series_response) "MySeries.zip")
    as (pevs & Hpevs & Hrun); try (vm_compute; reflexivity).
  exists pevs. eexists. split; [exact Hpevs|]. split; [exact Hrun|].
  vm_compute. reflexivity.
Defined.

Lemma cleanup_leaves_other_paths_witness :
  FS.lookup ["srv"; "out"; "10.0.0.9"; "2024-01-02_03-03_000001"]
    (fs (snd (handler two_volumes_generation Scenario.request_all
                (world_of Scenario.two_callers))))
  = Some (Dir [("Theirs_Volume_1.epub", File 1600000000 vol2)]).
Proof.
  rewrite (cleanup_leaves_other_paths (zip := Stored.library)
             (gen := two_volumes_generation) proc Scenario.request_all
             (world_of Scenario.two_callers) series_url "" "/srv/out"
             (Scenario.after_mkdir Scenario.two_callers)
             (Scenario.generated two_volumes_generation Scenario.two_callers)
             (world_of (Scenario.generated two_volumes_generation Scenario.two_callers))
             (body series_response) "MySeries.zip");
    try (vm_compute; reflexivity).
  split; intros [k Hk]; discriminate.
Defined.

Lemma packaging_failure_skips_cleanup_witness :
  exists final,
    handler Scenario.silent_generation Scenario.request_all (world_of earlier_request)
    = (Raise IndexError, final) /\
    FS.lookup ["srv"; "out"; "10.0.0.7"; "2024-01-02_03-04_000006"] (fs final)
    = Some (Dir []) /\
    existsb is_rmtree (trace final) = false.
Proof.
  destruct (packaging_failure_skips_cleanup (zip := Stored.library)
              (gen := Scenario.silent_generation)
              proc Scenario.request_all (world_of earlier_request)
              series_url "" "/srv/out"
              (Scenario.after_mkdir earlier_request)
              (Scenario.generated Scenario.silent_generation earlier_request)
              (world_of (Scenario.generated Scenario.silent_generation earlier_request))
              IndexError)
    as (pevs & Hpevs & Hrun & Hrm); try (vm_compute; reflexivity).
  eexists. split; [exact Hrun|]. split; [vm_compute; reflexivity | exact Hrm].
Defined.
